(** * Bitsafe: balance ledger and settlement engine

    A shallow embedding of [src/server/index.js] (the Express handlers that
    move money: convert, withdraw, deposit, trade and the admin transitions)
    together with the properties of the ledger that the specification states.

    Modelling conventions.
    - Amounts are JavaScript numbers / SQLite REAL columns in the source.
      They are modelled as exact rationals ([Qc], canonical so that equality
      is Leibniz equality); rounding is outside the model, and no property
      below rests on a cancellation that rounding would break.  [NaN],
      [undefined] and the members a plain object inherits are kept where
      the handlers can observe them.
    - A request is a record of optional fields, as [req.body] is: a numeric
      field holds a JSON number or is absent, a text field holds a string or
      is absent.
    - The SQLite connection is a state monad over the tables, with the open
      transaction (the snapshot [ROLLBACK] returns to) and a failure plan
      that says which data statements throw. *)

From Stdlib Require Import QArith Qcanon PrimFloat.
From stdpp Require Import base option strings list gmap fin_maps numbers.

Local Open Scope string_scope.
Local Open Scope list_scope.
Local Open Scope Qc_scope.

(** ** JavaScript values *)

Module Js.

(** What a numeric variable of the handlers can hold.  [Object] is a
    function or an object, as a lookup in a plain object returns for a
    member of [Object.prototype]: truthy, and [NaN] in arithmetic. *)
Inductive num : Type :=
| Undefined
| NaN
| Object
| Num (q : Qc).

(** A JSON number field of a request body, [undefined] when absent. *)
Definition of_field (f : option Qc) : num :=
  match f with Some q => Num q | None => Undefined end.

(** [x] in a boolean position, for [x] a number or [undefined]: the
    number when [x] is truthy.  An object is truthy and no number: [falsy]
    tests it, [truthy] gives [None] for it. *)
Definition truthy (x : num) : option Qc :=
  match x with
  | Num q => if decide (q = 0) then None else Some q
  | _ => None
  end.

(** [!x] *)
Definition falsy (x : num) : bool :=
  match x with
  | Undefined | NaN => true
  | Object => false
  | Num q => bool_decide (q = 0)
  end.

(** [parseFloat(x)] on a number or [undefined]. *)
Definition parseFloat (x : num) : num :=
  match x with Num q => Num q | _ => NaN end.

(** [x < y]: false as soon as one side converts to [NaN]. *)
Definition lt (x y : num) : bool :=
  match x, y with
  | Num a, Num b => bool_decide (a < b)
  | _, _ => false
  end.

(** A text value in a boolean position: the string when it is truthy. *)
Definition truthy_str (s : option string) : option string :=
  match s with
  | Some s => if decide (s = "") then None else Some s
  | None => None
  end.

(** [a || b] on text values. *)
Definition or_str (a b : option string) : option string :=
  match truthy_str a with Some s => Some s | None => b end.

(** A REAL column read into JavaScript and used in a comparison:
    [null] converts to [0]. *)
Definition of_sql (c : option Qc) : Qc := default 0 c.

End Js.

(** ** The tables *)

(** One entry of [users.trade_settings]. *)
Record tier : Type := {
  tier_seconds : option Qc;
  tier_percent : option Qc
}.

(** [users.trade_settings] once [JSON.parse] ran: an array of tiers, or
    text on which [JSON.parse] or [settings.find] throws. *)
Inductive settings_json : Type :=
| Tiers (l : list tier)
| Malformed.

Module Users.
Record row : Type := {
  balance : option Qc;            (* REAL DEFAULT 0, [None] is NULL *)
  status : string;                (* 'active' | 'frozen' *)
  min_trade_amount : option Qc;   (* REAL DEFAULT 10 *)
  trade_settings : option settings_json  (* TEXT, [None] is NULL or '' *)
}.
Definition with_balance (f : option Qc → option Qc) (r : row) : row :=
  {| balance := f (balance r); status := status r;
     min_trade_amount := min_trade_amount r;
     trade_settings := trade_settings r |}.
End Users.

Module Trades.
Record row : Type := {
  username : option string;
  symbol : option string;
  side : option string;
  amount : Qc;
  profit : option Qc;             (* REAL, [None] is NULL *)
  result : string
}.
End Trades.

Module Deposits.
Record row : Type := {
  username : string;
  currency : option string;
  network : option string;
  amount : option Qc;
  proof_image : option string;
  status : option string
}.
Definition with_status (s : option string) (r : row) : row :=
  {| username := username r; currency := currency r; network := network r;
     amount := amount r; proof_image := proof_image r; status := s |}.
End Deposits.

Module Withdrawals.
Record row : Type := {
  username : string;
  currency : string;
  network : string;
  amount : Qc;
  address : string;
  status : string
}.
Definition with_status (s : string) (r : row) : row :=
  {| username := username r; currency := currency r; network := network r;
     amount := amount r; address := address r; status := s |}.
End Withdrawals.

(** The database.  [users] is keyed by the UNIQUE username, [user_balances]
    by the UNIQUE (username, currency) pair; the other tables are
    append-only, the row with AUTOINCREMENT id [n] sits at index [n - 1]. *)
Record db : Type := {
  users : gmap string Users.row;
  user_balances : gmap (string * string) Qc;
  trades : list Trades.row;
  deposits : list Deposits.row;
  withdrawals : list Withdrawals.row
}.

Definition set_users (f : gmap string Users.row → gmap string Users.row) (d : db) : db :=
  {| users := f (users d); user_balances := user_balances d; trades := trades d;
     deposits := deposits d; withdrawals := withdrawals d |}.
Definition set_user_balances
    (f : gmap (string * string) Qc → gmap (string * string) Qc) (d : db) : db :=
  {| users := users d; user_balances := f (user_balances d); trades := trades d;
     deposits := deposits d; withdrawals := withdrawals d |}.
Definition set_trades (f : list Trades.row → list Trades.row) (d : db) : db :=
  {| users := users d; user_balances := user_balances d; trades := f (trades d);
     deposits := deposits d; withdrawals := withdrawals d |}.
Definition set_deposits (f : list Deposits.row → list Deposits.row) (d : db) : db :=
  {| users := users d; user_balances := user_balances d; trades := trades d;
     deposits := f (deposits d); withdrawals := withdrawals d |}.
Definition set_withdrawals (f : list Withdrawals.row → list Withdrawals.row) (d : db) : db :=
  {| users := users d; user_balances := user_balances d; trades := trades d;
     deposits := deposits d; withdrawals := f (withdrawals d) |}.

(** The row with id [id] of an append-only table. *)
Definition by_id {A} (l : list A) (id : nat) : option A :=
  match id with O => None | S i => l !! i end.

(** ** The SQL statements of the handlers *)

Module Sql.

(** [UPDATE users SET balance = balance + ? WHERE username=?] *)
Definition users_balance_plus (x : Qc) (u : string) : db → db :=
  set_users (alter (Users.with_balance (fmap (λ b, b + x))) u).

(** The same statement bound to a REAL column that may be NULL. *)
Definition users_balance_plus_col (x : option Qc) (u : string) : db → db :=
  set_users (alter (Users.with_balance (λ b, b ≫= λ b, (λ x, b + x) <$> x)) u).

(** [UPDATE users SET balance = balance - ? WHERE username=?] *)
Definition users_balance_minus (x : Qc) (u : string) : db → db :=
  set_users (alter (Users.with_balance (fmap (λ b, b - x))) u).

(** [UPDATE user_balances SET amount = amount - ? WHERE username=? AND currency=?] *)
Definition user_balances_minus (x : Qc) (u c : string) : db → db :=
  set_user_balances (alter (λ a, a - x) (u, c)).

(** [UPDATE user_balances SET amount = amount + ? WHERE username=? AND currency=?] *)
Definition user_balances_plus (x : Qc) (u c : string) : db → db :=
  set_user_balances (alter (λ a, a + x) (u, c)).

(** [UPDATE user_balances SET amount = amount - ?
     WHERE username=? AND currency='USDT' AND amount >= ?] *)
Definition user_balances_minus_if_covered (x : Qc) (u : string) : db → db :=
  set_user_balances (λ m,
    match m !! (u, "USDT") with
    | Some a => if decide (x ≤ a) then <[(u, "USDT") := a - x]> m else m
    | None => m
    end).

(** [INSERT INTO user_balances (username, currency, amount) VALUES (?, ?, ?)] *)
Definition user_balances_insert (u c : string) (x : Qc) : db → db :=
  set_user_balances (<[(u, c) := x]>).

(** [INSERT INTO user_balances ... VALUES (?, ?, ?)
     ON CONFLICT(username, currency) DO UPDATE SET amount = amount + ?] *)
Definition user_balances_upsert (u c : string) (x : Qc) : db → db :=
  set_user_balances (λ m,
    match m !! (u, c) with
    | Some a => <[(u, c) := a + x]> m
    | None => <[(u, c) := x]> m
    end).

(** [INSERT INTO trades (username, symbol, side, amount, profit, result)] *)
Definition trades_insert (r : Trades.row) : db → db :=
  set_trades (λ l, l ++ [r]).

(** [INSERT INTO withdrawals ...]; [lastID] is the new length. *)
Definition withdrawals_insert (r : Withdrawals.row) : db → db :=
  set_withdrawals (λ l, l ++ [r]).

(** [INSERT INTO deposits ...] with the column default [status = 'pending']. *)
Definition deposits_insert (r : Deposits.row) : db → db :=
  set_deposits (λ l, l ++ [r]).

(** [UPDATE withdrawals SET status=? WHERE id=?] *)
Definition withdrawals_set_status (s : string) (id : nat) : db → db :=
  set_withdrawals (λ l,
    match id with O => l | S i => alter (Withdrawals.with_status s) i l end).

(** [UPDATE deposits SET status=? WHERE id=?] *)
Definition deposits_set_status (s : option string) (id : nat) : db → db :=
  set_deposits (λ l,
    match id with O => l | S i => alter (Deposits.with_status s) i l end).

End Sql.

(** ** The connection: state, transactions, injected failures *)

(** What the process holds between two requests: the tables, the snapshot
    taken by an open [BEGIN TRANSACTION] (if any), the failure plan (one
    entry per data statement still to run, [true] when it throws; past its
    end nothing fails) and the module-level variable [ADMIN_WIN_SIDE].

    [store] holds the tables of the data model, in which every amount of
    [user_balances] is a number.  [null_balances] lists the rows of
    [user_balances] whose amount is NULL: the data model has none, a
    conversion at a price that is no number writes one (newest first).
    A row is in one of the two, never in both. *)
Record world : Type := {
  store : db;
  null_balances : list (string * string);
  snapshot : option (db * list (string * string));
  plan : list bool;
  ADMIN_WIN_SIDE : option string
}.

Definition set_store (f : db → db) (w : world) : world :=
  {| store := f (store w); null_balances := null_balances w; snapshot := snapshot w;
     plan := plan w; ADMIN_WIN_SIDE := ADMIN_WIN_SIDE w |}.
Definition set_null_balances (l : list (string * string)) (w : world) : world :=
  {| store := store w; null_balances := l; snapshot := snapshot w;
     plan := plan w; ADMIN_WIN_SIDE := ADMIN_WIN_SIDE w |}.
Definition set_snapshot (s : option (db * list (string * string))) (w : world) : world :=
  {| store := store w; null_balances := null_balances w; snapshot := s;
     plan := plan w; ADMIN_WIN_SIDE := ADMIN_WIN_SIDE w |}.
Definition set_plan (p : list bool) (w : world) : world :=
  {| store := store w; null_balances := null_balances w; snapshot := snapshot w;
     plan := p; ADMIN_WIN_SIDE := ADMIN_WIN_SIDE w |}.
Definition set_ADMIN_WIN_SIDE (s : option string) (w : world) : world :=
  {| store := store w; null_balances := null_balances w; snapshot := snapshot w;
     plan := plan w; ADMIN_WIN_SIDE := s |}.

(** The state at process start: [let ADMIN_WIN_SIDE = "short"]. *)
Definition boot (d : db) : world :=
  {| store := d; null_balances := []; snapshot := None; plan := [];
     ADMIN_WIN_SIDE := Some "short" |}.

(** A computation returns or throws an [Error] with a message. *)
Inductive outcome (A : Type) : Type :=
| Ret (a : A)
| Throw (message : string).
Arguments Ret {A} a.
Arguments Throw {A} message.

Definition M (A : Type) : Type := world → outcome A * world.

Global Instance M_ret : MRet M := λ A a w, (Ret a, w).
Global Instance M_bind : MBind M := λ A B f m w,
  match m w with
  | (Ret a, w') => f a w'
  | (Throw e, w') => (Throw e, w')
  end.

(** [try { m } catch (e) { h e }]: what [m] wrote before throwing stays. *)
Definition try_catch {A} (m : M A) (h : string → M A) : M A := λ w,
  match m w with
  | (Ret a, w') => (Ret a, w')
  | (Throw e, w') => h e w'
  end.

Module Db.

(** One data statement reaches the engine: it consumes one plan entry. *)
Definition statement : M unit := λ w,
  match plan w with
  | true :: p => (Throw "SQLITE_ERROR", set_plan p w)
  | false :: p => (Ret (), set_plan p w)
  | [] => (Ret (), w)
  end.

Definition read {A} (q : db → A) : M A := λ w, (Ret (q (store w)), w).
Definition write (f : db → db) : M unit := λ w, (Ret (), set_store f w).

(** [await db.get(...)] *)
Definition get {A} (q : db → A) : M A := statement;; read q.

(** [await db.run(...)] with a data statement *)
Definition run (f : db → db) : M unit := statement;; write f.

(** Whether the row [k] of [user_balances] has a NULL amount. *)
Definition is_null (k : string * string) (w : world) : bool :=
  existsb (λ k', bool_decide (k' = k)) (null_balances w).

(** [await db.get("SELECT ... FROM user_balances WHERE username = ? AND
    currency = ?")]: [None] when there is no row, else the row's [amount]
    as the comparisons of the handlers take it, a NULL counting as 0. *)
Definition read_balance (k : string * string) : M (option Qc) := λ w,
  (Ret (if is_null k w then Some 0 else user_balances (store w) !! k), w).
Definition get_balance (k : string * string) : M (option Qc) :=
  statement;; read_balance k.

(** [await db.run(...)] with the upsert of [user_balances] and a number:
    on a row whose amount is NULL, [amount + ?] is NULL again.  (The
    UPDATE statements of [Sql] need no such care: they change the rows of
    [user_balances (store w)] only.) *)
Definition write_upsert (username currency : string) (amount : Qc) : M unit := λ w,
  (Ret (), if is_null (username, currency) w then w
           else set_store (Sql.user_balances_upsert username currency amount) w).
Definition upsert (username currency : string) (amount : Qc) : M unit :=
  statement;; write_upsert username currency amount.

(** [await db.run(...)] with the upsert of [user_balances] whose amount is
    bound to [NaN], which SQLite stores as NULL:
    [INSERT ... VALUES (?, ?, NULL) ON CONFLICT ... DO UPDATE SET amount =
    amount + NULL] leaves the row with a NULL amount, whether it was there
    or not. *)
Definition nullify (k : string * string) : M unit := λ w,
  (Ret (), set_null_balances (if is_null k w then null_balances w
                              else k :: null_balances w)
             (set_store (set_user_balances (delete k)) w)).
Definition run_null_amount (k : string * string) : M unit := statement;; nullify k.

(** [await db.run(...)] with an INSERT, returning [result.lastID] *)
Definition run_lastID (f : db → db) (lastID : db → nat) : M nat :=
  statement;; write f;; read lastID.

(** A thrown [Error]. *)
Definition throw {A} (message : string) : M A := λ w, (Throw message, w).

(** [await db.run("BEGIN TRANSACTION")].  The three transaction statements
    are not data statements: they fail for SQLite's own reason only, a
    transaction already open or none to close. *)
Definition begin_transaction : M unit := λ w,
  match snapshot w with
  | Some _ => (Throw "cannot start a transaction within a transaction", w)
  | None => (Ret (), set_snapshot (Some (store w, null_balances w)) w)
  end.

(** [await db.run("COMMIT")] *)
Definition commit : M unit := λ w,
  match snapshot w with
  | Some _ => (Ret (), set_snapshot None w)
  | None => (Throw "cannot commit - no transaction is active", w)
  end.

(** [await db.run("ROLLBACK")] *)
Definition rollback : M unit := λ w,
  match snapshot w with
  | Some (d, nulls) =>
    (Ret (), set_snapshot None (set_null_balances nulls (set_store (λ _, d) w)))
  | None => (Throw "cannot rollback - no transaction is active", w)
  end.

End Db.

(** ** Requests and responses *)

(** [req]: the session cookie and header, the route parameter, the
    uploaded file and the fields of [req.body] the handlers read. *)
Module Req.
Record t : Type := {
  cookies_user : option string;
  headers_x_user : option string;
  params_id : nat;
  file : option string;
  username : option string;
  symbol : option string;
  side : option string;
  amount : option Qc;
  seconds : option Qc;
  percent : option Qc;
  fromCurrency : option string;
  toCurrency : option string;
  currency : option string;
  network : option string;
  address : option string;
  status : option string;
  balance : option Qc
}.

(** The same request with [toCurrency] set. *)
Definition with_toCurrency (c : option string) (r : t) : t :=
  {| cookies_user := cookies_user r; headers_x_user := headers_x_user r;
     params_id := params_id r; file := file r; username := username r;
     symbol := symbol r; side := side r; amount := amount r;
     seconds := seconds r; percent := percent r;
     fromCurrency := fromCurrency r; toCurrency := c;
     currency := currency r; network := network r; address := address r;
     status := status r; balance := balance r |}.
End Req.

(** The JSON bodies the handlers send. *)
Inductive body : Type :=
| Error (error : string)
| Converted (convertedAmount rate : Qc)
| ConvertedNaN  (* [JSON.stringify] writes [NaN] as [null]: both fields null *)
| Pending (id : nat)
| Settled (result : string) (profit : Qc)
| Success
| Updated
| WinSide (winSide : option string).

(** [res.status(code).json(body)]; [res.json] alone sends 200. *)
Record response : Type := { code : nat; json : body }.

Definition reply (c : nat) (b : body) : response := {| code := c; json := b |}.
Definition send (c : nat) (b : body) : M response := mret (reply c b).

(** [req.cookies.user || req.headers['x-user']], then [!username]. *)
Definition session_user (req : Req.t) : option string :=
  Js.truthy_str (Js.or_str (Req.cookies_user req) (Req.headers_x_user req)).

(** ** Prices *)

(** The fallback table of [getPrices]. *)
Definition fallback_prices : gmap string Js.num :=
  <["BTC" := Js.Num (Qc_of_Z 95000)]> (<["ETH" := Js.Num (Qc_of_Z 3600)]>
  (<["BNB" := Js.Num (Qc_of_Z 600)]> (<["SOL" := Js.Num (Qc_of_Z 150)]>
  (<["USDT" := Js.Num 1]> ∅)))).

(** [getPrices]: the own properties of the object it returns.  [ticker]
    is the map built from the exchange's answer (base symbol of every
    [...USDT] pair to [parseFloat(item.price)]), [None] when the fetch or
    the decoding threw. *)
Definition getPrices (ticker : option (gmap string Js.num)) : gmap string Js.num :=
  match ticker with
  | Some prices => <["USDT" := Js.Num 1]> prices
  | None => fallback_prices
  end.

(** The property names every plain object inherits from
    [Object.prototype]. *)
Definition Object_prototype : list string :=
  [ "constructor"; "hasOwnProperty"; "isPrototypeOf"; "propertyIsEnumerable";
    "toLocaleString"; "toString"; "valueOf"; "__defineGetter__"; "__defineSetter__";
    "__lookupGetter__"; "__lookupSetter__"; "__proto__" ].

(** [prices[currency]] on the plain object [getPrices] returns: an own
    property, else the member inherited under that name, else
    [undefined].  [__proto__] is an accessor: assigning a number to it
    creates no own property. *)
Definition price_of (prices : gmap string Js.num) (currency : string) : Js.num :=
  if decide (currency = "__proto__") then Js.Object
  else
    match prices !! currency with
    | Some price => price
    | None => if decide (currency ∈ Object_prototype) then Js.Object else Js.Undefined
    end.

(** ** POST /api/convert *)

Definition convert_trade (username fromCurrency toCurrency : string)
    (amount targetAmount : Qc) : Trades.row :=
  {| Trades.username := Some username;
     Trades.symbol := Some (String.append fromCurrency (String.append "-" toCurrency));
     Trades.side := Some "convert";
     Trades.amount := amount;
     Trades.profit := Some targetAmount;
     Trades.result := "win" |}.

(** The same row when [targetAmount] is [NaN], which SQLite stores as
    NULL. *)
Definition convert_trade_NaN (username fromCurrency toCurrency : string)
    (amount : Qc) : Trades.row :=
  {| Trades.username := Some username;
     Trades.symbol := Some (String.append fromCurrency (String.append "-" toCurrency));
     Trades.side := Some "convert";
     Trades.amount := amount;
     Trades.profit := None;
     Trades.result := "win" |}.

(** [if (!toCurrency) toCurrency = 'USDT'] *)
Definition target_currency (req : Req.t) : string :=
  default "USDT" (Js.truthy_str (Req.toCurrency req)).

Definition post_api_convert (ticker : option (gmap string Js.num)) (req : Req.t)
    : M response :=
  match session_user req with
  | None => send 401 (Error "Unauthorized")
  | Some username =>
    let toCurrency := target_currency req in
    match Js.truthy_str (Req.fromCurrency req), Js.truthy (Js.of_field (Req.amount req)) with
    | Some fromCurrency, Some amount =>
      if decide (amount ≤ 0) then send 400 (Error "Invalid parameters")
      else if decide (fromCurrency = toCurrency)
      then send 400 (Error "Cannot convert to same currency")
      else
        try_catch (
          (* 1. Get Prices *)
          let prices := getPrices ticker in
          let pFrom := price_of prices fromCurrency in
          let pTo := price_of prices toCurrency in
          if Js.falsy pFrom
          then send 400 (Error (String.append "Price not available for " fromCurrency))
          else if Js.falsy pTo
          then send 400 (Error (String.append "Price not available for " toCurrency))
          else
            (* 2. Check Balance *)
            short ←
              (if decide (fromCurrency = "USDT") then
                 user ← Db.get (λ d, users d !! username);
                 mret (match user with
                       | None => Some "Insufficient USDT balance"
                       | Some user =>
                         if decide (Js.of_sql (Users.balance user) < amount)
                         then Some "Insufficient USDT balance" else None
                       end)
               else
                 balanceRow ← Db.get_balance (username, fromCurrency);
                 mret (match balanceRow with
                       | None => Some "Insufficient balance"
                       | Some held =>
                         if decide (held < amount)
                         then Some "Insufficient balance" else None
                       end));
            match short with
            | Some msg => send 400 (Error msg)
            | None =>
              (* 3. Calculate Target Amount: [amount * pFrom / pTo] and the
                 rate [pFrom / pTo] are numbers when both prices are
                 numbers, and [NaN] when one is a function or an object *)
              let target :=
                match Js.truthy pFrom, Js.truthy pTo with
                | Some pFrom, Some pTo => Some (amount * pFrom / pTo, pFrom / pTo)
                | _, _ => None
                end in
              Db.begin_transaction;;
              (* 4. Deduct Source *)
              (if decide (fromCurrency = "USDT") then
                 Db.run (Sql.users_balance_minus amount username);;
                 Db.run (Sql.user_balances_minus_if_covered amount username)
               else
                 Db.run (Sql.user_balances_minus amount username fromCurrency));;
              match target with
              | Some (targetAmount, rate) =>
                (* 5. Add Target *)
                (if decide (toCurrency = "USDT") then
                   Db.run (Sql.users_balance_plus targetAmount username);;
                   Db.upsert username "USDT" targetAmount
                 else
                   Db.upsert username toCurrency targetAmount);;
                (* 6. Log Trade *)
                Db.run (Sql.trades_insert
                          (convert_trade username fromCurrency toCurrency amount
                             targetAmount));;
                Db.commit;;
                send 200 (Converted targetAmount rate)
              | None =>
                (* 5. Add Target, [targetAmount] bound as NULL *)
                (if decide (toCurrency = "USDT") then
                   Db.run (Sql.users_balance_plus_col None username);;
                   Db.run_null_amount (username, "USDT")
                 else
                   Db.run_null_amount (username, toCurrency));;
                (* 6. Log Trade, [profit] bound as NULL *)
                Db.run (Sql.trades_insert
                          (convert_trade_NaN username fromCurrency toCurrency amount));;
                Db.commit;;
                send 200 ConvertedNaN
              end
            end)
          (λ e, Db.rollback;; send 500 (Error e))
    | _, _ => send 400 (Error "Invalid parameters")
    end
  end.

(** ** POST /api/withdraw *)

(** [user && user.status === 'frozen'] *)
Definition frozen (user : option Users.row) : bool :=
  match user with
  | Some user => bool_decide (Users.status user = "frozen")
  | None => false
  end.

Definition post_api_withdraw (req : Req.t) : M response :=
  match session_user req with
  | None => send 401 (Error "Unauthorized")
  | Some username =>
    user ← Db.get (λ d, users d !! username);
    if frozen user then send 403 (Error "Account frozen")
    else
      match Js.truthy_str (Req.currency req), Js.truthy_str (Req.network req),
            Js.truthy (Js.of_field (Req.amount req)), Js.truthy_str (Req.address req) with
      | Some currency, Some network, Some amount, Some address =>
        try_catch (
          Db.begin_transaction;;
          (* 1. Check and Deduct Balance *)
          balanceDeducted ←
            (if decide (currency = "USDT") then
               (* Try user_balances first *)
               balanceRow ← Db.get_balance (username, "USDT");
               match balanceRow with
               | Some held =>
                 if decide (amount ≤ held) then
                   Db.run (Sql.user_balances_minus amount username "USDT");; mret true
                 else
                   (* Check legacy main balance *)
                   userMain ← Db.get (λ d, users d !! username);
                   match userMain with
                   | Some userMain =>
                     if decide (amount ≤ Js.of_sql (Users.balance userMain)) then
                       Db.run (Sql.users_balance_minus amount username);; mret true
                     else mret false
                   | None => mret false
                   end
               | None =>
                 userMain ← Db.get (λ d, users d !! username);
                 match userMain with
                 | Some userMain =>
                   if decide (amount ≤ Js.of_sql (Users.balance userMain)) then
                     Db.run (Sql.users_balance_minus amount username);; mret true
                   else mret false
                 | None => mret false
                 end
               end
             else
               (* Other coins *)
               balanceRow ← Db.get_balance (username, currency);
               match balanceRow with
               | Some held =>
                 if decide (amount ≤ held) then
                   Db.run (Sql.user_balances_minus amount username currency);; mret true
                 else mret false
               | None => mret false
               end);
          if negb balanceDeducted then
            Db.rollback;; send 400 (Error "Insufficient balance")
          else
            (* 2. Insert Withdrawal Record *)
            lastID ← Db.run_lastID
              (Sql.withdrawals_insert
                 {| Withdrawals.username := username; Withdrawals.currency := currency;
                    Withdrawals.network := network; Withdrawals.amount := amount;
                    Withdrawals.address := address; Withdrawals.status := "pending" |})
              (λ d, length (withdrawals d));
            Db.commit;;
            send 200 (Pending lastID))
          (λ e, Db.rollback;; send 500 (Error e))
      | _, _, _, _ => send 400 (Error "Missing fields")
      end
  end.

(** ** POST /api/deposit *)

Definition post_api_deposit (req : Req.t) : M response :=
  match session_user req with
  | None => send 401 (Error "Unauthorized")
  | Some username =>
    user ← Db.get (λ d, users d !! username);
    if frozen user then send 403 (Error "Account frozen")
    else
      let proof_image := String.append "/uploads/" <$> Req.file req in
      try_catch (
        lastID ← Db.run_lastID
          (Sql.deposits_insert
             {| Deposits.username := username; Deposits.currency := Req.currency req;
                Deposits.network := Req.network req; Deposits.amount := Req.amount req;
                Deposits.proof_image := proof_image; Deposits.status := Some "pending" |})
          (λ d, length (deposits d));
        send 200 (Pending lastID))
        (λ e, send 500 (Error e))
  end.

(** ** POST /api/trade *)

(** [s.seconds == seconds], both sides numbers or [undefined] *)
Definition tier_matches (seconds : Qc) (s : tier) : bool :=
  bool_decide (tier_seconds s = Some seconds).

(** [user.trade_settings ? JSON.parse(user.trade_settings) : []] *)
Definition parse_settings (column : option settings_json) : M (list tier) :=
  match column with
  | None => mret []
  | Some (Tiers l) => mret l
  | Some Malformed => Db.throw "Unexpected token in JSON"
  end.

(** The lookup of [percent] in the user's settings: the variable [percent]
    leaves the block holding the tier's [parseFloat(setting.percent)] when
    [seconds] is truthy and a tier matches, and what the caller sent
    otherwise. *)
Definition lookup_percent (user : Users.row) (seconds percent : option Qc) : M Js.num :=
  match Js.truthy (Js.of_field seconds) with
  | Some seconds =>
    settings ← parse_settings (Users.trade_settings user);
    match List.find (tier_matches seconds) settings with
    | Some setting => mret (Js.parseFloat (Js.of_field (tier_percent setting)))
    | None => mret (Js.of_field percent)
    end
  | None => mret (Js.of_field percent)
  end.

(** [user.min_trade_amount || 10] *)
Definition minAmount (user : Users.row) : Qc :=
  default (Qc_of_Z 10) (Js.truthy (Js.of_field (Users.min_trade_amount user))).

(** [if (!percent || isNaN(parseFloat(percent)))
       percent = parseFloat(req.body.percent) || 0;
     else percent = parseFloat(percent);]
    A truthy [percent] is a number, so the second test never adds a case. *)
Definition fallback_percent (percent : Js.num) (body_percent : option Qc) : Qc :=
  match Js.truthy percent with
  | Some percent => percent
  | None => default 0 (Js.truthy (Js.parseFloat (Js.of_field body_percent)))
  end.

(** [win ? "win" : "lose"] *)
Definition result_of (win : bool) : string := if win then "win" else "lose".

(** [win ? amount * (percent / 100) : -amount] *)
Definition profit_of (win : bool) (amount percent : Qc) : Qc :=
  if win then amount * (percent / Qc_of_Z 100) else - amount.

Definition read_ADMIN_WIN_SIDE : M (option string) := λ w, (Ret (ADMIN_WIN_SIDE w), w).

Definition post_api_trade (req : Req.t) : M response :=
  let username := Req.username req in
  (* Validate and parse inputs *)
  let amount := Js.parseFloat (Js.of_field (Req.amount req)) in
  (* Fetch user settings for validation *)
  checked ← try_catch (
      user ← Db.get (λ d, username ≫= λ u, users d !! u);
      match user with
      | None => mret (inl (reply 404 (Error "User not found")))
      | Some user =>
        if Js.lt amount (Js.Num (minAmount user))
        then mret (inl (reply 400 (Error "Insufficient balance")))
        else
          percent ← lookup_percent user (Req.seconds req) (Req.percent req);
          mret (inr percent)
      end)
      (λ e, mret (inl (reply 500 (Error "Validation failed"))));
  match checked with
  | inl sent => mret sent
  | inr percent =>
    (* Fallback if percent still missing *)
    let percent := fallback_percent percent (Req.percent req) in
    match amount with
    | Js.Num amount =>
      if decide (amount ≤ 0) then send 400 (Error "Invalid amount")
      else
        side ← read_ADMIN_WIN_SIDE;
        let win := bool_decide (Req.side req = side) in
        let profit := profit_of win amount percent in
        try_catch (
          Db.run (Sql.trades_insert
                    {| Trades.username := username; Trades.symbol := Req.symbol req;
                       Trades.side := Req.side req; Trades.amount := amount;
                       Trades.profit := Some profit; Trades.result := result_of win |});;
          Db.run (λ d, from_option (λ u, Sql.users_balance_plus profit u d) d username);;
          send 200 (Settled (result_of win) profit))
          (λ e, send 500 (Error "Trade failed"))
    | _ => send 400 (Error "Invalid amount")
    end
  end.

(** ** Admin transitions *)

(** POST /api/admin/winside *)
Definition post_api_admin_winside (req : Req.t) : M response := λ w,
  (Ret (reply 200 (WinSide (Req.side req))),
   set_ADMIN_WIN_SIDE (Req.side req) w).

(** POST /api/admin/users/balance *)
Definition post_api_admin_users_balance (req : Req.t) : M response :=
  Db.run (λ d, from_option
                 (λ u, Sql.users_balance_plus_col (Req.balance req) u d) d
                 (Req.username req));;
  send 200 Updated.

(** POST /api/admin/users/add-coin-balance *)
Definition post_api_admin_users_add_coin_balance (req : Req.t) : M response :=
  match Js.truthy_str (Req.username req), Js.truthy_str (Req.currency req),
        Req.amount req with
  | Some username, Some currency, Some amount =>
    let val := amount in
    (* Upsert balance *)
    existing ← Db.get_balance (username, currency);
    match existing with
    | Some _ => Db.run (Sql.user_balances_plus val username currency)
    | None => Db.run (Sql.user_balances_insert username currency val)
    end;;
    (* If currency is USDT, also update the main legacy balance *)
    (if decide (currency = "USDT")
     then Db.run (Sql.users_balance_plus val username)
     else mret ());;
    send 200 Updated
  | _, _, _ => send 400 (Error "Missing fields")
  end.

(** POST /api/deposit/:id/status *)
Definition post_api_deposit_status (req : Req.t) : M response :=
  let status := Req.status req in
  let id := Req.params_id req in
  Db.run (Sql.deposits_set_status status id);;
  (if decide (status = Some "approved") then
     dep ← Db.get (λ d, by_id (deposits d) id);
     match dep with
     | Some dep =>
       Db.run (Sql.users_balance_plus_col (Deposits.amount dep) (Deposits.username dep))
     | None => mret ()
     end
   else mret ());;
  send 200 Success.

(** POST /api/withdraw/:id/status *)
Definition post_api_withdraw_status (req : Req.t) : M response :=
  let id := Req.params_id req in
  match Req.status req with
  | Some status =>
    if decide (status ≠ "approved" ∧ status ≠ "rejected")
    then send 400 (Error "Invalid status")
    else
      try_catch (
        Db.begin_transaction;;
        withdrawal ← Db.get (λ d, by_id (withdrawals d) id);
        match withdrawal with
        | None => Db.rollback;; send 404 (Error "Withdrawal not found")
        | Some withdrawal =>
          if decide (Withdrawals.status withdrawal ≠ "pending")
          then Db.rollback;; send 400 (Error "Withdrawal already processed")
          else
            Db.run (Sql.withdrawals_set_status status id);;
            (* If Rejected, Refund Balance *)
            (if decide (status = "rejected") then
               let username := Withdrawals.username withdrawal in
               let currency := Withdrawals.currency withdrawal in
               let amount := Withdrawals.amount withdrawal in
               if decide (currency = "USDT") then
                 (* Refund to legacy main balance *)
                 Db.run (Sql.users_balance_plus amount username)
               else
                 (* Refund to coin balance *)
                 Db.upsert username currency amount
             else mret ());;
            Db.commit;;
            send 200 Success
        end)
        (λ e, Db.rollback;; send 500 (Error e))
  | None => send 400 (Error "Invalid status")
  end.

(** * Vocabulary of the properties *)

(** ** Balances *)

(** A process between two requests: no transaction open, no failure
    injected. *)
Definition at_rest (d : db) (winner : option string) : world :=
  {| store := d; null_balances := []; snapshot := None; plan := [];
     ADMIN_WIN_SIDE := winner |}.

(** The same process about to meet the failures of [p]. *)
Definition failing (p : list bool) (d : db) (winner : option string) : world :=
  {| store := d; null_balances := []; snapshot := None; plan := p;
     ADMIN_WIN_SIDE := winner |}.

(** The legacy scalar of a user, read the way JavaScript compares it. *)
Definition legacy_balance (d : db) (u : string) : Qc :=
  match users d !! u with
  | Some r => Js.of_sql (Users.balance r)
  | None => 0
  end.

(** The per-currency entry, zero when absent. *)
Definition entry_balance (d : db) (u c : string) : Qc :=
  default 0 (user_balances d !! (u, c)).

(** The availability rule in the words of the specification (section
    4.2): the legacy scalar for the primary currency, the per-currency
    entry for every other currency, zero when absent. *)
Definition available_balance (d : db) (u c : string) : Qc :=
  if decide (c = "USDT") then legacy_balance d u else entry_balance d u c.

(** The user is registered and the legacy balance column holds a number. *)
Definition registered (d : db) (u : string) : Prop :=
  is_Some (users d !! u ≫= Users.balance).

(** ** The stores the handlers leave behind when no statement fails *)

(** Steps 4 and 5 of the conversion when every statement succeeds. *)
Definition deduct_source (u f : string) (a : Qc) (d : db) : db :=
  if decide (f = "USDT")
  then Sql.user_balances_minus_if_covered a u (Sql.users_balance_minus a u d)
  else Sql.user_balances_minus a u f d.

Definition add_target (u t : string) (x : Qc) (d : db) : db :=
  if decide (t = "USDT")
  then Sql.user_balances_upsert u "USDT" x (Sql.users_balance_plus x u d)
  else Sql.user_balances_upsert u t x d.

(** The trade row and the store a settlement leaves behind when both of
    its statements succeed. *)
Definition settled_trade (req : Req.t) (a profit : Qc) (win : bool) : Trades.row :=
  {| Trades.username := Req.username req; Trades.symbol := Req.symbol req;
     Trades.side := Req.side req; Trades.amount := a;
     Trades.profit := Some profit; Trades.result := result_of win |}.

(** [balanceRow && balanceRow.amount >= amount] *)
Definition entry_covers (d : db) (u c : string) (a : Qc) : bool :=
  match user_balances d !! (u, c) with
  | Some held => bool_decide (a ≤ held)
  | None => false
  end.

(** [userMain && userMain.balance >= amount] *)
Definition legacy_covers (d : db) (u : string) (a : Qc) : bool :=
  match users d !! u with
  | Some r => bool_decide (a ≤ Js.of_sql (Users.balance r))
  | None => false
  end.

(** The store after the deduction of a funded withdrawal. *)
Definition escrowed (d : db) (u c : string) (a : Qc) : db :=
  if entry_covers d u c a
  then Sql.user_balances_minus a u c d
  else Sql.users_balance_minus a u d.

Definition pending_withdrawal (u c n : string) (a : Qc) (ad : string) : Withdrawals.row :=
  {| Withdrawals.username := u; Withdrawals.currency := c; Withdrawals.network := n;
     Withdrawals.amount := a; Withdrawals.address := ad;
     Withdrawals.status := "pending" |}.

(** The store after the refund of a rejected withdrawal. *)
Definition refunded (wd : Withdrawals.row) (d : db) : db :=
  if decide (Withdrawals.currency wd = "USDT")
  then Sql.users_balance_plus (Withdrawals.amount wd) (Withdrawals.username wd) d
  else Sql.user_balances_upsert (Withdrawals.username wd) (Withdrawals.currency wd)
         (Withdrawals.amount wd) d.

(** The two statements a rejected withdrawal went through, on the REAL
    column as SQLite computes it, in binary64: [amount = amount - ?] of
    the deduction, then [amount = amount + ?] of the refund. *)
Definition refund_of_deduction (held amount : float) : float :=
  PrimFloat.add (PrimFloat.sub held amount) amount.

(** ** Credits of the primary currency *)

(** A credit of [x] USDT that reaches both representations: the legacy
    scalar and the per-currency USDT entry (created when absent). *)
Definition credits_both (d d' : db) (u : string) (x : Qc) : Prop :=
  legacy_balance d' u = legacy_balance d u + x
  ∧ user_balances d' !! (u, "USDT") = Some (entry_balance d u "USDT" + x).

(** A credit of [x] USDT that reaches the legacy scalar and leaves every
    per-currency entry as it was. *)
Definition credits_legacy_only (d d' : db) (u : string) (x : Qc) : Prop :=
  legacy_balance d' u = legacy_balance d u + x
  ∧ user_balances d' = user_balances d.

(** What the specification asks of every USDT credit: the legacy scalar
    grows by [x], and so does the USDT entry when there is one. *)
Definition keeps_in_sync (d d' : db) (u : string) (x : Qc) : Prop :=
  legacy_balance d' u = legacy_balance d u + x
  ∧ ∀ held : Qc, user_balances d !! (u, "USDT") = Some held →
      user_balances d' !! (u, "USDT") = Some (held + x).

(** The store after an admin coin credit. *)
Definition coin_credited (u c : string) (v : Qc) (d : db) : db :=
  let d1 := match user_balances d !! (u, c) with
            | Some _ => Sql.user_balances_plus v u c d
            | None => Sql.user_balances_insert u c v d
            end in
  if decide (c = "USDT") then Sql.users_balance_plus v u d1 else d1.

(** ** Failure of a statement in the middle of a handler *)

(** Either the handler answered 200, or the tables are what they were and
    no transaction is left open. *)
Definition committed_or_untouched (d : db) (res : outcome response * world) : Prop :=
  (∃ b : body, res.1 = Ret (reply 200 b))
  ∨ (store res.2 = d ∧ snapshot res.2 = None).

(** ** Sample data *)

Module Sample.

(** [POST /api/convert] sent by [user] through the [x-user] header. *)
Definition convert_request (user : string) (from : string) (to : option string)
    (amount : Z) : Req.t :=
  {| Req.cookies_user := None; Req.headers_x_user := Some user; Req.params_id := 0;
     Req.file := None; Req.username := None; Req.symbol := None; Req.side := None;
     Req.amount := Some (Qc_of_Z amount); Req.seconds := None; Req.percent := None;
     Req.fromCurrency := Some from; Req.toCurrency := to; Req.currency := None;
     Req.network := None; Req.address := None; Req.status := None;
     Req.balance := None |}.

(** [POST /api/trade] *)
Definition trade_request (user side : string) (amount : Z) (seconds : option Z)
    (percent : Z) : Req.t :=
  {| Req.cookies_user := None; Req.headers_x_user := None; Req.params_id := 0;
     Req.file := None; Req.username := Some user; Req.symbol := Some "BTC";
     Req.side := Some side; Req.amount := Some (Qc_of_Z amount);
     Req.seconds := Qc_of_Z <$> seconds; Req.percent := Some (Qc_of_Z percent);
     Req.fromCurrency := None; Req.toCurrency := None; Req.currency := None;
     Req.network := None; Req.address := None; Req.status := None;
     Req.balance := None |}.

(** [POST /api/withdraw] and [POST /api/deposit] *)
Definition transfer_request (user currency : string) (amount : Z) : Req.t :=
  {| Req.cookies_user := Some user; Req.headers_x_user := None; Req.params_id := 0;
     Req.file := None; Req.username := None; Req.symbol := None; Req.side := None;
     Req.amount := Some (Qc_of_Z amount); Req.seconds := None; Req.percent := None;
     Req.fromCurrency := None; Req.toCurrency := None; Req.currency := Some currency;
     Req.network := Some "TRC20"; Req.address := Some "T9yD14Nj9j7xAB4dbGeiX9h8unkKHxuWwb";
     Req.status := None; Req.balance := None |}.

(** [POST /api/withdraw/:id/status] and [POST /api/deposit/:id/status] *)
Definition status_request (id : nat) (status : string) : Req.t :=
  {| Req.cookies_user := None; Req.headers_x_user := None; Req.params_id := id;
     Req.file := None; Req.username := None; Req.symbol := None; Req.side := None;
     Req.amount := None; Req.seconds := None; Req.percent := None;
     Req.fromCurrency := None; Req.toCurrency := None; Req.currency := None;
     Req.network := None; Req.address := None; Req.status := Some status;
     Req.balance := None |}.

(** [POST /api/admin/users/add-coin-balance] *)
Definition coin_request (user currency : string) (amount : Z) : Req.t :=
  {| Req.cookies_user := None; Req.headers_x_user := None; Req.params_id := 0;
     Req.file := None; Req.username := Some user; Req.symbol := None; Req.side := None;
     Req.amount := Some (Qc_of_Z amount); Req.seconds := None; Req.percent := None;
     Req.fromCurrency := None; Req.toCurrency := None; Req.currency := Some currency;
     Req.network := None; Req.address := None; Req.status := None;
     Req.balance := None |}.

(** alice: 1000 USDT on the legacy scalar, the default minimum, a 60
    second tier that pays 0 percent and a 120 second tier that pays 80. *)
Definition alice : Users.row :=
  {| Users.balance := Some (Qc_of_Z 1000); Users.status := "active";
     Users.min_trade_amount := Some (Qc_of_Z 10);
     Users.trade_settings :=
       Some (Tiers [ {| tier_seconds := Some (Qc_of_Z 60);
                        tier_percent := Some (Qc_of_Z 0) |};
                     {| tier_seconds := Some (Qc_of_Z 120);
                        tier_percent := Some (Qc_of_Z 80) |} ]) |}.

(** alice also holds a USDT entry of 100 and 2 BTC; one USDT deposit of
    300 and one USDT withdrawal of 40 wait for the admin. *)
Definition ledger : db :=
  {| users := {[ "alice" := alice ]};
     user_balances := {[ ("alice", "USDT") := Qc_of_Z 100; ("alice", "BTC") := Qc_of_Z 2 ]};
     trades := [];
     deposits := [ {| Deposits.username := "alice"; Deposits.currency := Some "USDT";
                      Deposits.network := Some "TRC20"; Deposits.amount := Some (Qc_of_Z 300);
                      Deposits.proof_image := None; Deposits.status := Some "pending" |} ];
     withdrawals := [ {| Withdrawals.username := "alice"; Withdrawals.currency := "USDT";
                         Withdrawals.network := "TRC20"; Withdrawals.amount := Qc_of_Z 40;
                         Withdrawals.address := "T9yD14Nj9j7xAB4dbGeiX9h8unkKHxuWwb";
                         Withdrawals.status := "pending" |} ] |}.

(** [POST /api/admin/users/balance] *)
Definition balance_request (user : string) (balance : Z) : Req.t :=
  {| Req.cookies_user := None; Req.headers_x_user := None; Req.params_id := 0;
     Req.file := None; Req.username := Some user; Req.symbol := None; Req.side := None;
     Req.amount := None; Req.seconds := None; Req.percent := None;
     Req.fromCurrency := None; Req.toCurrency := None; Req.currency := None;
     Req.network := None; Req.address := None; Req.status := None;
     Req.balance := Some (Qc_of_Z balance) |}.

(** [POST /api/admin/winside] *)
Definition winside_request (side : string) : Req.t :=
  {| Req.cookies_user := None; Req.headers_x_user := None; Req.params_id := 0;
     Req.file := None; Req.username := None; Req.symbol := None; Req.side := Some side;
     Req.amount := None; Req.seconds := None; Req.percent := None;
     Req.fromCurrency := None; Req.toCurrency := None; Req.currency := None;
     Req.network := None; Req.address := None; Req.status := None;
     Req.balance := None |}.

(** The row [POST /api/register] inserts: balance 0 and the column
    defaults. *)
Definition fresh : Users.row :=
  {| Users.balance := Some 0; Users.status := "active";
     Users.min_trade_amount := Some (Qc_of_Z 10);
     Users.trade_settings := Some (Tiers []) |}.

(** The steps of [src/test_trade.js] after the registration: the admin
    sets the balance to 1000 and the winning side to long, the user wins a
    long trade of 100 at 50 percent, then loses a short one. *)
Definition test_registered : world :=
  boot {| users := {[ "testuser" := fresh ]}; user_balances := ∅; trades := [];
          deposits := []; withdrawals := [] |}.
Definition test_funded : outcome response * world :=
  post_api_admin_users_balance (balance_request "testuser" 1000) test_registered.
Definition test_winside : outcome response * world :=
  post_api_admin_winside (winside_request "long") test_funded.2.
Definition test_win : outcome response * world :=
  post_api_trade (trade_request "testuser" "long" 100 None 50) test_winside.2.
Definition test_lose : outcome response * world :=
  post_api_trade (trade_request "testuser" "short" 100 None 50) test_win.2.

(** The admin rejects the withdrawal that waits in [ledger]. *)
Definition first_rejected : outcome response * world :=
  post_api_withdraw_status (status_request 1 "rejected") (at_rest ledger (Some "short")).

(** The admin approves the deposit that waits in [ledger]. *)
Definition first_approved : outcome response * world :=
  post_api_deposit_status (status_request 1 "approved") (at_rest ledger (Some "short")).

(** alice wins a long trade of 100 at the 50 percent she asked for. *)
Definition trade_won : outcome response * world :=
  post_api_trade (trade_request "alice" "long" 100 None 50) (at_rest ledger (Some "long")).

(** alice withdraws 40 USDT, then the admin rejects that withdrawal. *)
Definition submitted : outcome response * world :=
  post_api_withdraw (transfer_request "alice" "USDT" 40) (at_rest ledger (Some "short")).
Definition then_rejected : outcome response * world :=
  post_api_withdraw_status (status_request 2 "rejected") submitted.2.

End Sample.

(** * The rest of the account and admin surface *)

(** ** Statements on [users] *)

Definition row_with_status (s : string) (r : Users.row) : Users.row :=
  {| Users.balance := Users.balance r; Users.status := s;
     Users.min_trade_amount := Users.min_trade_amount r;
     Users.trade_settings := Users.trade_settings r |}.

Definition row_with_settings (m : option Qc) (ts : option settings_json)
    (r : Users.row) : Users.row :=
  {| Users.balance := Users.balance r; Users.status := Users.status r;
     Users.min_trade_amount := m; Users.trade_settings := ts |}.

(** The row [INSERT INTO users (username, balance) VALUES (?, ?)] creates:
    the other columns take their defaults, [status 'active'],
    [min_trade_amount 10], [trade_settings '[]']. *)
Definition new_user (balance : option Qc) : Users.row :=
  {| Users.balance := balance; Users.status := "active";
     Users.min_trade_amount := Some (Qc_of_Z 10);
     Users.trade_settings := Some (Tiers []) |}.

(** [INSERT INTO users (username, balance) VALUES (?, ?)]: [username] is
    UNIQUE, a second row with the same name is refused. *)
Definition users_insert (u : string) (balance : option Qc) (d : db) : string + db :=
  match users d !! u with
  | Some _ => inl "SQLITE_CONSTRAINT: UNIQUE constraint failed: users.username"
  | None => inr (set_users (<[u := new_user balance]>) d)
  end.

(** [UPDATE users SET status=? WHERE username=?] *)
Definition users_set_status (s u : string) : db → db :=
  set_users (alter (row_with_status s) u).

(** [UPDATE users SET min_trade_amount=?, trade_settings=? WHERE username=?] *)
Definition users_set_settings (m : option Qc) (ts : option settings_json)
    (u : string) : db → db :=
  set_users (alter (row_with_settings m ts) u).

(** The statement [f] applied to the tables, throwing what it refuses. *)
Definition apply_checked (f : db → string + db) : M unit := λ w,
  match f (store w) with
  | inl e => (Throw e, w)
  | inr d' => (Ret (), set_store (λ _, d') w)
  end.

(** [await db.run(...)] with a statement a constraint can refuse *)
Definition run_checked (f : db → string + db) : M unit :=
  Db.statement;; apply_checked f.

(** ** POST /api/register *)

(** [password] is [req.body.password]; its hash is computed and dropped. *)
Definition post_api_register (req : Req.t) (password : option string) : M response :=
  match Js.truthy_str (Req.username req), Js.truthy_str password with
  | Some username, Some _ =>
    try_catch (
      run_checked (users_insert username (Some 0));;
      send 200 Success)
      (λ e, send 400 (Error "Username already exists"))
  | _, _ => send 400 (Error "Missing fields")
  end.

(** ** POST /api/login *)

(** The answer and the [user] cookie it sets, if any. *)
Record login_response : Type := { sent : response; cookie : option string }.

(** The password of the body is not read. *)
Definition post_api_login (req : Req.t) : M login_response :=
  let username := Req.username req in
  user ← Db.get (λ d, username ≫= λ u, users d !! u);
  match user with
  | None => mret {| sent := reply 401 (Error "Invalid login"); cookie := None |}
  | Some user =>
    if decide (Users.status user = "frozen")
    then mret {| sent := reply 403 (Error "Please contact with customer service");
                 cookie := None |}
    else mret {| sent := reply 200 Success; cookie := username |}
  end.

(** ** GET /api/history/trades *)

(** [SELECT * FROM trades WHERE username=? ORDER BY id DESC] *)
Definition trades_of (username : string) (d : db) : list Trades.row :=
  reverse (filter (λ r, Trades.username r = Some username) (trades d)).

Definition get_api_history_trades (req : Req.t) : M (response + list Trades.row) :=
  match session_user req with
  | None => mret (inl (reply 401 (Error "Unauthorized")))
  | Some username =>
    rows ← Db.get (trades_of username);
    mret (inr rows)
  end.

(** ** POST /api/admin/users/freeze *)

Definition post_api_admin_users_freeze (req : Req.t) : M response :=
  match Js.truthy_str (Req.username req), Js.truthy_str (Req.status req) with
  | Some username, Some status =>
    try_catch (
      Db.run (users_set_status status username);;
      send 200 Success)
      (λ e, send 500 (Error e))
  | _, _ => send 400 (Error "Missing fields")
  end.

(** ** POST /api/admin/users/settings *)

(** [min_trade_amount] and [trade_settings] are the two other fields of
    the body, the second an array of tiers or absent;
    [JSON.stringify(trade_settings)] is stored, NULL when absent. *)
Definition post_api_admin_users_settings (req : Req.t)
    (min_trade_amount : option Qc) (trade_settings : option (list tier)) : M response :=
  match Js.truthy_str (Req.username req) with
  | Some username =>
    try_catch (
      Db.run (users_set_settings min_trade_amount (Tiers <$> trade_settings) username);;
      send 200 Success)
      (λ e, send 500 (Error e))
  | None => send 400 (Error "Missing username")
  end.

(** ** Every request the model serves *)

Inductive call : Type :=
| Register (req : Req.t) (password : option string)
| Login (req : Req.t)
| Convert (ticker : option (gmap string Js.num)) (req : Req.t)
| Withdraw (req : Req.t)
| Deposit (req : Req.t)
| HistoryTrades (req : Req.t)
| Trade (req : Req.t)
| AdminWinside (req : Req.t)
| AdminBalance (req : Req.t)
| AdminAddCoin (req : Req.t)
| AdminFreeze (req : Req.t)
| AdminSettings (req : Req.t) (min_trade_amount : option Qc)
    (trade_settings : option (list tier))
| DepositStatus (req : Req.t)
| WithdrawStatus (req : Req.t).

(** The state in which the run of the handler ends.  When the handler
    answered, it is the state the next request meets.  When it threw (a
    statement outside any [try], or the ROLLBACK of a [catch] block with
    no transaction to roll back), the rejection is unhandled and ends the
    process: what outlives it is [store], the tables on disk; the
    variable [ADMIN_WIN_SIDE] does not. *)
Definition serve (c : call) (w : world) : world :=
  match c with
  | Register req password => (post_api_register req password w).2
  | Login req => (post_api_login req w).2
  | Convert ticker req => (post_api_convert ticker req w).2
  | Withdraw req => (post_api_withdraw req w).2
  | Deposit req => (post_api_deposit req w).2
  | HistoryTrades req => (get_api_history_trades req w).2
  | Trade req => (post_api_trade req w).2
  | AdminWinside req => (post_api_admin_winside req w).2
  | AdminBalance req => (post_api_admin_users_balance req w).2
  | AdminAddCoin req => (post_api_admin_users_add_coin_balance req w).2
  | AdminFreeze req => (post_api_admin_users_freeze req w).2
  | AdminSettings req m ts => (post_api_admin_users_settings req m ts w).2
  | DepositStatus req => (post_api_deposit_status req w).2
  | WithdrawStatus req => (post_api_withdraw_status req w).2
  end.

(** The user whose rows a request can write: the session user, the
    [username] of the body, or the owner of the row an admin decides on. *)
Definition subject (c : call) (d : db) : option string :=
  match c with
  | Convert _ req | Withdraw req | Deposit req | HistoryTrades req => session_user req
  | Register req _ | Login req | Trade req | AdminBalance req | AdminAddCoin req
  | AdminFreeze req | AdminSettings req _ _ => Req.username req
  | AdminWinside _ => None
  | DepositStatus req => Deposits.username <$> by_id (deposits d) (Req.params_id req)
  | WithdrawStatus req => Withdrawals.username <$> by_id (withdrawals d) (Req.params_id req)
  end.

(** No balance of the ledger is below zero: neither a legacy scalar nor a
    per-currency entry. *)
Definition solvent (d : db) : Prop :=
  (∀ (u : string) (r : Users.row) (b : Qc),
     users d !! u = Some r → Users.balance r = Some b → 0 ≤ b)
  ∧ (∀ (k : string * string) (a : Qc), user_balances d !! k = Some a → 0 ≤ a).

(** No price of the mapping is a number below zero. *)
Definition prices_nonnegative (prices : gmap string Js.num) : Prop :=
  ∀ (c : string) (q : Qc), prices !! c = Some (Js.Num q) → 0 ≤ q.

(** ** What a request was answered and which tables it may write *)

(** The HTTP status a handler ended with, if it answered. *)
Definition status_sent {A} (status : A → nat) (res : outcome A * world) : option nat :=
  match res.1 with
  | Ret a => Some (status a)
  | Throw _ => None
  end.

(** The HTTP status of the answer to a request; [res.json(rows)] of the
    history is a 200. *)
Definition status_of (c : call) (w : world) : option nat :=
  match c with
  | Register req password => status_sent code (post_api_register req password w)
  | Login req => status_sent (λ r, code (sent r)) (post_api_login req w)
  | Convert ticker req => status_sent code (post_api_convert ticker req w)
  | Withdraw req => status_sent code (post_api_withdraw req w)
  | Deposit req => status_sent code (post_api_deposit req w)
  | HistoryTrades req =>
    status_sent (λ r, match r with inl r => code r | inr _ => 200%nat end)
      (get_api_history_trades req w)
  | Trade req => status_sent code (post_api_trade req w)
  | AdminWinside req => status_sent code (post_api_admin_winside req w)
  | AdminBalance req => status_sent code (post_api_admin_users_balance req w)
  | AdminAddCoin req => status_sent code (post_api_admin_users_add_coin_balance req w)
  | AdminFreeze req => status_sent code (post_api_admin_users_freeze req w)
  | AdminSettings req m ts => status_sent code (post_api_admin_users_settings req m ts w)
  | DepositStatus req => status_sent code (post_api_deposit_status req w)
  | WithdrawStatus req => status_sent code (post_api_withdraw_status req w)
  end.

Inductive table : Type :=
| TUsers
| TUserBalances
| TTrades
| TDeposits
| TWithdrawals.

(** The tables named by the INSERT and UPDATE statements of each handler. *)
Definition writes (c : call) (t : table) : bool :=
  match c, t with
  | Register _ _, TUsers => true
  | Convert _ _, (TUsers | TUserBalances | TTrades) => true
  | Withdraw _, (TUsers | TUserBalances | TWithdrawals) => true
  | Deposit _, TDeposits => true
  | Trade _, (TUsers | TTrades) => true
  | AdminBalance _, TUsers => true
  | AdminAddCoin _, (TUsers | TUserBalances) => true
  | AdminFreeze _, TUsers => true
  | AdminSettings _ _ _, TUsers => true
  | DepositStatus _, (TUsers | TDeposits) => true
  | WithdrawStatus _, (TUsers | TUserBalances | TWithdrawals) => true
  | _, _ => false
  end.

(** The table [t] holds the same rows in [d] and [d']. *)
Definition same_rows (t : table) (d d' : db) : Prop :=
  match t with
  | TUsers => users d = users d'
  | TUserBalances => user_balances d = user_balances d'
  | TTrades => trades d = trades d'
  | TDeposits => deposits d = deposits d'
  | TWithdrawals => withdrawals d = withdrawals d'
  end.

(** ** More sample data *)

Module Scenario.

(** A body that names an account, with the status an admin gives it. *)
Definition account_request (user : string) (status : option string) : Req.t :=
  {| Req.cookies_user := None; Req.headers_x_user := None; Req.params_id := 0;
     Req.file := None; Req.username := Some user; Req.symbol := None; Req.side := None;
     Req.amount := None; Req.seconds := None; Req.percent := None;
     Req.fromCurrency := None; Req.toCurrency := None; Req.currency := None;
     Req.network := None; Req.address := None; Req.status := status;
     Req.balance := None |}.

(** A request that carries the cookie of [user] and an empty body. *)
Definition session_request (user : string) : Req.t :=
  {| Req.cookies_user := Some user; Req.headers_x_user := None; Req.params_id := 0;
     Req.file := None; Req.username := None; Req.symbol := None; Req.side := None;
     Req.amount := None; Req.seconds := None; Req.percent := None;
     Req.fromCurrency := None; Req.toCurrency := None; Req.currency := None;
     Req.network := None; Req.address := None; Req.status := None;
     Req.balance := None |}.

(** bob: 500 USDT, no minimum of his own, settings that do not parse. *)
Definition bob : Users.row :=
  {| Users.balance := Some (Qc_of_Z 500); Users.status := "active";
     Users.min_trade_amount := None; Users.trade_settings := Some Malformed |}.

(** alice and bob; bob submitted a deposit without an amount. *)
Definition desk : db :=
  {| users := {[ "alice" := Sample.alice; "bob" := bob ]};
     user_balances := {[ ("alice", "BTC") := Qc_of_Z 2 ]};
     trades := [];
     deposits := [ {| Deposits.username := "bob"; Deposits.currency := Some "USDT";
                      Deposits.network := Some "TRC20"; Deposits.amount := None;
                      Deposits.proof_image := Some "/uploads/slip.png";
                      Deposits.status := Some "pending" |} ];
     withdrawals := [] |}.

End Scenario.

(** * Properties *)

(** ** Running the monad *)

Ltac run := repeat (progress (
  cbv beta iota zeta delta
    [mbind M_bind mret M_ret try_catch send Db.get Db.run Db.run_lastID Db.statement
     Db.read Db.write Db.throw Db.begin_transaction Db.commit Db.rollback
     read_ADMIN_WIN_SIDE Db.nullify Db.run_null_amount Db.get_balance Db.upsert
     Db.read_balance Db.write_upsert Db.is_null existsb
     set_store set_null_balances set_snapshot set_plan set_ADMIN_WIN_SIDE
     at_rest failing negb];
  cbn [plan snapshot store null_balances ADMIN_WIN_SIDE])).

Ltac sql := repeat (progress (
  cbv beta iota zeta delta
    [Sql.users_balance_plus Sql.users_balance_plus_col Sql.users_balance_minus
     Sql.user_balances_minus Sql.user_balances_plus Sql.user_balances_minus_if_covered
     Sql.user_balances_insert Sql.user_balances_upsert Sql.trades_insert
     Sql.withdrawals_insert Sql.deposits_insert Sql.withdrawals_set_status
     Sql.deposits_set_status
     set_users set_user_balances set_trades set_deposits set_withdrawals];
  cbn [users user_balances trades deposits withdrawals])).

(** ** The scenario of the repository's test *)

(** [src/test_trade.js] expects the balances 1000, 1050 and 950. *)
Lemma test_trade_js :
  legacy_balance (store Sample.test_funded.2) "testuser" = Qc_of_Z 1000
  ∧ Sample.test_winside.1 = Ret (reply 200 (WinSide (Some "long")))
  ∧ (∃ profit : Qc,
       Sample.test_win.1 = Ret (reply 200 (Settled "win" profit))
       ∧ profit = Qc_of_Z 50)
  ∧ legacy_balance (store Sample.test_win.2) "testuser" = Qc_of_Z 1050
  ∧ (∃ profit : Qc,
       Sample.test_lose.1 = Ret (reply 200 (Settled "lose" profit))
       ∧ profit = Qc_of_Z (-100))
  ∧ legacy_balance (store Sample.test_lose.2) "testuser" = Qc_of_Z 950.
Proof.
  split_and!; try (apply Qc_is_canon; by vm_compute); try by vm_compute.
  - eexists. split; [by vm_compute|]. apply Qc_is_canon. by vm_compute.
  - eexists. split; [by vm_compute|]. apply Qc_is_canon. by vm_compute.
Qed.

(** ** Arithmetic and truthiness *)

Lemma Qc_pos_nonzero (a : Qc) : 0 < a → a ≠ 0.
Proof. intros H ->. by apply Qclt_not_eq in H. Qed.

Lemma truthy_Num (a : Qc) : a ≠ 0 → Js.truthy (Js.Num a) = Some a.
Proof. intros H. simpl. by rewrite decide_False. Qed.

Lemma Qc_minus_plus (b a : Qc) : b - a + a = b.
Proof. ring. Qed.

Lemma Qc_zero_plus (a : Qc) : 0 + a = a.
Proof. ring. Qed.

(** ** The effect of the statements on the two balance representations *)

Lemma upsert_entry (u c : string) (x : Qc) (d : db) :
  user_balances (Sql.user_balances_upsert u c x d) !! (u, c)
  = Some (entry_balance d u c + x).
Proof.
  unfold entry_balance. sql.
  destruct (user_balances d !! (u, c)) as [m|]; rewrite lookup_insert_eq; simpl.
  - done.
  - by rewrite Qc_zero_plus.
Qed.

Lemma upsert_other (u c : string) (x : Qc) (d : db) (k : string * string) :
  k ≠ (u, c) → user_balances (Sql.user_balances_upsert u c x d) !! k = user_balances d !! k.
Proof.
  intros Hk. sql.
  destruct (user_balances d !! (u, c)); by rewrite lookup_insert_ne.
Qed.

Lemma minus_if_covered_other (x : Qc) (u : string) (d : db) (k : string * string) :
  k ≠ (u, "USDT") →
  user_balances (Sql.user_balances_minus_if_covered x u d) !! k = user_balances d !! k.
Proof.
  intros Hk. sql.
  destruct (user_balances d !! (u, "USDT")); [|done].
  case_decide; [|done]. by rewrite lookup_insert_ne.
Qed.

Lemma legacy_plus (x : Qc) (u : string) (d : db) :
  registered d u →
  legacy_balance (Sql.users_balance_plus x u d) u = legacy_balance d u + x.
Proof.
  unfold registered, legacy_balance. sql. rewrite lookup_alter_eq.
  destruct (users d !! u) as [r|]; simpl; [|by intros []].
  destruct (Users.balance r); simpl; [done|by intros []].
Qed.

Lemma legacy_minus (x : Qc) (u : string) (d : db) :
  registered d u →
  legacy_balance (Sql.users_balance_minus x u d) u = legacy_balance d u - x.
Proof.
  unfold registered, legacy_balance. sql. rewrite lookup_alter_eq.
  destruct (users d !! u) as [r|]; simpl; [|by intros []].
  destruct (Users.balance r); simpl; [done|by intros []].
Qed.

(** ** Conversion *)

Section Convert.
Variables (ticker : option (gmap string Js.num)) (req : Req.t).
Variables (u f : string) (a pf pt : Qc).
Hypothesis Huser : session_user req = Some u.
Hypothesis Hfrom : Js.truthy_str (Req.fromCurrency req) = Some f.
Hypothesis Hamount : Req.amount req = Some a.
Hypothesis Hpos : 0 < a.
Hypothesis Hdiff : f ≠ target_currency req.

Let t := target_currency req.

Lemma convert_validated (w : world) :
  post_api_convert ticker req w =
  try_catch
    (let pFrom := price_of (getPrices ticker) f in
     let pTo := price_of (getPrices ticker) t in
     if Js.falsy pFrom
     then send 400 (Error (String.append "Price not available for " f))
     else if Js.falsy pTo
     then send 400 (Error (String.append "Price not available for " t))
     else
       short ←
         (if decide (f = "USDT") then
            user ← Db.get (λ d, users d !! u);
            mret (match user with
                  | None => Some "Insufficient USDT balance"
                  | Some user =>
                    if decide (Js.of_sql (Users.balance user) < a)
                    then Some "Insufficient USDT balance" else None
                  end)
          else
            balanceRow ← Db.get_balance (u, f);
            mret (match balanceRow with
                  | None => Some "Insufficient balance"
                  | Some held =>
                    if decide (held < a) then Some "Insufficient balance" else None
                  end));
       match short with
       | Some msg => send 400 (Error msg)
       | None =>
         Db.begin_transaction;;
         (if decide (f = "USDT") then
            Db.run (Sql.users_balance_minus a u);;
            Db.run (Sql.user_balances_minus_if_covered a u)
          else Db.run (Sql.user_balances_minus a u f));;
         match match Js.truthy pFrom, Js.truthy pTo with
               | Some pFrom, Some pTo => Some (a * pFrom / pTo, pFrom / pTo)
               | _, _ => None
               end with
         | Some (targetAmount, rate) =>
           (if decide (t = "USDT") then
              Db.run (Sql.users_balance_plus targetAmount u);;
              Db.upsert u "USDT" targetAmount
            else Db.upsert u t targetAmount);;
           Db.run (Sql.trades_insert (convert_trade u f t a targetAmount));;
           Db.commit;;
           send 200 (Converted targetAmount rate)
         | None =>
           (if decide (t = "USDT") then
              Db.run (Sql.users_balance_plus_col None u);;
              Db.run_null_amount (u, "USDT")
            else Db.run_null_amount (u, t));;
           Db.run (Sql.trades_insert (convert_trade_NaN u f t a));;
           Db.commit;;
           send 200 ConvertedNaN
         end
       end)
    (λ e, Db.rollback;; send 500 (Error e)) w.
Proof.
  unfold post_api_convert. rewrite Huser, Hfrom, Hamount. cbn [Js.of_field].
  rewrite (truthy_Num _ (Qc_pos_nonzero _ Hpos)).
  rewrite decide_False by (by apply Qclt_not_le).
  by rewrite decide_False by done.
Qed.

Lemma truthy_not_falsy (x : Js.num) (q : Qc) : Js.truthy x = Some q → Js.falsy x = false.
Proof.
  destruct x as [| | |y]; simpl; try done.
  destruct (decide (y = 0)); [done|]. intros _. by apply bool_decide_eq_false_2.
Qed.

Lemma convert_runs (d : db) (winner : option string) :
  Js.truthy (price_of (getPrices ticker) f) = Some pf →
  Js.truthy (price_of (getPrices ticker) t) = Some pt →
  a ≤ available_balance d u f →
  post_api_convert ticker req (at_rest d winner) =
  (Ret (reply 200 (Converted (a * pf / pt) (pf / pt))),
   at_rest (Sql.trades_insert (convert_trade u f t a (a * pf / pt))
              (add_target u t (a * pf / pt) (deduct_source u f a d))) winner).
Proof.
  intros Hpf Hpt Hav. rewrite convert_validated. cbv zeta.
  rewrite (truthy_not_falsy _ _ Hpf), (truthy_not_falsy _ _ Hpt), Hpf, Hpt.
  unfold available_balance, legacy_balance, entry_balance, deduct_source, add_target in *.
  destruct (decide (f = "USDT")) as [Hf|Hf].
  - run. destruct (users d !! u) as [r|]; [|by apply Qcle_not_lt in Hav].
    rewrite decide_False by (by apply Qcle_not_lt).
    destruct (decide (t = "USDT")); by run.
  - run. destruct (user_balances d !! (u, f)) as [m|]; [|by apply Qcle_not_lt in Hav].
    simpl in Hav. rewrite decide_False by (by apply Qcle_not_lt).
    destruct (decide (t = "USDT")); by run.
Qed.

End Convert.

Lemma entry_minus (x : Qc) (u c : string) (d : db) :
  0 < x → x ≤ entry_balance d u c →
  entry_balance (Sql.user_balances_minus x u c d) u c = entry_balance d u c - x.
Proof.
  unfold entry_balance. sql. rewrite lookup_alter_eq.
  destruct (user_balances d !! (u, c)) as [m|]; simpl; [done|].
  intros H0 H1. by apply Qcle_not_lt in H1.
Qed.

Lemma entry_upsert (u c : string) (x : Qc) (d : db) :
  entry_balance (Sql.user_balances_upsert u c x d) u c = entry_balance d u c + x.
Proof. unfold entry_balance at 1. by rewrite upsert_entry. Qed.

Lemma entry_upsert_other (u c c' : string) (x : Qc) (d : db) :
  c' ≠ c → entry_balance (Sql.user_balances_upsert u c x d) u c' = entry_balance d u c'.
Proof.
  intros Hc. unfold entry_balance. rewrite upsert_other; [done|]. by intros [= ?].
Qed.

Lemma entry_minus_if_covered_other (x : Qc) (u c : string) (d : db) :
  c ≠ "USDT" →
  entry_balance (Sql.user_balances_minus_if_covered x u d) u c = entry_balance d u c.
Proof.
  intros Hc. unfold entry_balance. rewrite minus_if_covered_other; [done|]. by intros [= ?].
Qed.

(** A user who holds a positive amount of USDT is registered. *)
Lemma funded_legacy_registered (d : db) (u : string) (a : Qc) :
  0 < a → a ≤ legacy_balance d u → registered d u.
Proof.
  unfold legacy_balance, registered. intros Hpos Hle.
  destruct (users d !! u) as [r|]; simpl; [|by apply Qcle_not_lt in Hle].
  destruct (Users.balance r); [done|]. by apply Qcle_not_lt in Hle.
Qed.

(** C1. A valid conversion (positive amount, two distinct currencies, a
    price for each, a user who holds at least the amount of the source
    currency and, when the target is USDT, has a legacy balance to
    receive it) answers 200 with [convertedAmount = (amount * price(from))
    / price(to)] and [rate = price(from) / price(to)], lowers the
    available balance of the source currency by exactly the amount, raises
    the available balance of the target currency by exactly the converted
    amount, and appends one trade row with side "convert", the amount, the
    converted amount as profit and result "win". *)
Theorem convert_moves_exact_amounts
    (ticker : option (gmap string Js.num)) (req : Req.t)
    (u f : string) (a pf pt : Qc) (d : db) (winner : option string) :
  session_user req = Some u →
  Js.truthy_str (Req.fromCurrency req) = Some f →
  Req.amount req = Some a →
  0 < a →
  f ≠ target_currency req →
  Js.truthy (price_of (getPrices ticker) f) = Some pf →
  Js.truthy (price_of (getPrices ticker) (target_currency req)) = Some pt →
  (target_currency req = "USDT" → registered d u) →
  a ≤ available_balance d u f →
  ∃ (d' : db) (row : Trades.row),
    post_api_convert ticker req (at_rest d winner)
    = (Ret (reply 200 (Converted (a * pf / pt) (pf / pt))), at_rest d' winner)
    ∧ available_balance d' u f = available_balance d u f - a
    ∧ available_balance d' u (target_currency req)
      = available_balance d u (target_currency req) + a * pf / pt
    ∧ trades d' = trades d ++ [row]
    ∧ Trades.side row = Some "convert"
    ∧ Trades.amount row = a
    ∧ Trades.profit row = Some (a * pf / pt)
    ∧ Trades.result row = "win".
Proof.
  intros Hu Hf Ha Hpos Hne Hpf Hpt Hreg Hav.
  eexists _, (convert_trade u f (target_currency req) a (a * pf / pt)).
  split; [by eapply convert_runs|].
  split_and!; try reflexivity.
  - unfold available_balance, deduct_source, add_target in *.
    destruct (decide (f = "USDT")) as [->|Hfu].
    + rewrite decide_False by done.
      transitivity (legacy_balance (Sql.users_balance_minus a u d) u);
        [done|]. apply legacy_minus. by apply (funded_legacy_registered d u a).
    + destruct (decide (target_currency req = "USDT")) as [Ht|Ht].
      * transitivity (entry_balance
          (Sql.users_balance_plus (a * pf / pt) u (Sql.user_balances_minus a u f d)) u f).
        { apply (entry_upsert_other u "USDT" f). done. }
        by apply (entry_minus a u f d).
      * transitivity (entry_balance (Sql.user_balances_minus a u f d) u f).
        { by apply (entry_upsert_other u (target_currency req) f). }
        by apply entry_minus.
  - unfold available_balance, deduct_source, add_target in *.
    destruct (decide (target_currency req = "USDT")) as [Ht|Ht].
    + rewrite decide_False by congruence.
      transitivity (legacy_balance (Sql.users_balance_plus (a * pf / pt) u d) u);
        [done|]. by apply legacy_plus, Hreg.
    + destruct (decide (f = "USDT")) as [->|Hfu].
      * etransitivity; [apply (entry_upsert u (target_currency req))|].
        f_equal. etransitivity; [by apply entry_minus_if_covered_other|done].
      * etransitivity; [apply (entry_upsert u (target_currency req))|].
        f_equal. unfold entry_balance. sql. by rewrite lookup_alter_ne by congruence.
  - unfold add_target, deduct_source. by repeat case_decide.
Qed.

(** ** Trade settlement *)

Section Trade.
Variables (req : Req.t) (u : string) (user : Users.row) (a : Qc) (pct : Js.num).
Variables (d : db) (winner : option string).
Hypothesis Hname : Req.username req = Some u.
Hypothesis Huser : users d !! u = Some user.
Hypothesis Hamount : Req.amount req = Some a.
Hypothesis Hpos : 0 < a.
Hypothesis Hmin : minAmount user ≤ a.
Hypothesis Hlookup :
  lookup_percent user (Req.seconds req) (Req.percent req) (at_rest d winner)
  = (Ret pct, at_rest d winner).

Let win := bool_decide (Req.side req = winner).
Let profit := profit_of win a (fallback_percent pct (Req.percent req)).

Lemma trade_runs :
  post_api_trade req (at_rest d winner) =
  (Ret (reply 200 (Settled (result_of win) profit)),
   at_rest (Sql.users_balance_plus profit u
              (Sql.trades_insert (settled_trade req a profit win) d)) winner).
Proof.
  unfold post_api_trade. rewrite Hname, Hamount. cbn [Js.of_field Js.parseFloat Js.lt].
  run. cbn [mbind option_bind]. rewrite Huser.
  rewrite bool_decide_eq_false_2 by (by apply Qcle_not_lt).
  unfold at_rest in Hlookup. rewrite Hlookup.
  rewrite decide_False by (by apply Qclt_not_le).
  run. unfold settled_trade. by rewrite Hname.
Qed.

End Trade.

Lemma result_of_win (win : bool) : result_of win = "win" ↔ win = true.
Proof. by destruct win. Qed.

(** C2. A settlement whose amount parses to a positive number that is not
    below the user's minimum answers with a result that is "win" exactly
    when the side of the request equals [ADMIN_WIN_SIDE]; the profit it
    returns, records and adds to the legacy balance is [amount * (percent /
    100)] on a win and [- amount] on a loss, [percent] being the payout the
    handler resolved. *)
Theorem trade_outcome_and_profit
    (req : Req.t) (u : string) (user : Users.row) (a : Qc) (pct : Js.num)
    (d : db) (winner : option string) :
  Req.username req = Some u →
  users d !! u = Some user →
  Req.amount req = Some a →
  0 < a →
  minAmount user ≤ a →
  lookup_percent user (Req.seconds req) (Req.percent req) (at_rest d winner)
  = (Ret pct, at_rest d winner) →
  ∃ (result : string) (profit : Qc) (d' : db) (row : Trades.row),
    post_api_trade req (at_rest d winner)
    = (Ret (reply 200 (Settled result profit)), at_rest d' winner)
    ∧ (result = "win" ↔ Req.side req = winner)
    ∧ (result = "win" →
       profit = a * (fallback_percent pct (Req.percent req) / Qc_of_Z 100))
    ∧ (result ≠ "win" → result = "lose" ∧ profit = - a)
    ∧ users d' !! u = Some (Users.with_balance (fmap (λ b, b + profit)) user)
    ∧ trades d' = trades d ++ [row]
    ∧ Trades.amount row = a
    ∧ Trades.profit row = Some profit
    ∧ Trades.result row = result.
Proof.
  intros Hname Huser Ha Hpos Hmin Hlookup.
  eexists _, _, _, (settled_trade req a _ _).
  split; [by eapply trade_runs|].
  split_and!; try reflexivity.
  - rewrite result_of_win. apply bool_decide_eq_true.
  - intros Hw%result_of_win. by rewrite Hw.
  - destruct (bool_decide (Req.side req = winner)); [by intros []|done].
  - sql. by rewrite lookup_alter_eq, Huser.
Qed.

(** C7. A losing settlement is applied without looking at the balance:
    for a registered user and a losing trade of a valid amount [A] the
    handler answers 200 with result "lose" and profit [- A], and the legacy
    balance becomes the previous one minus [A], below zero whenever the
    user held less than [A]. *)
Theorem losing_trade_is_never_refused
    (req : Req.t) (u : string) (user : Users.row) (a b : Qc) (pct : Js.num)
    (d : db) (winner : option string) :
  Req.username req = Some u →
  users d !! u = Some user →
  Users.balance user = Some b →
  Req.amount req = Some a →
  0 < a →
  minAmount user ≤ a →
  lookup_percent user (Req.seconds req) (Req.percent req) (at_rest d winner)
  = (Ret pct, at_rest d winner) →
  Req.side req ≠ winner →
  ∃ d' : db,
    post_api_trade req (at_rest d winner)
    = (Ret (reply 200 (Settled "lose" (- a))), at_rest d' winner)
    ∧ legacy_balance d' u = b - a
    ∧ (b < a → legacy_balance d' u < 0).
Proof.
  intros Hname Huser Hb Ha Hpos Hmin Hlookup Hside.
  eexists. split.
  - erewrite trade_runs by done.
    by rewrite bool_decide_eq_false_2 by done.
  - cbn [profit_of].
    assert (legacy_balance
              (Sql.users_balance_plus (- a) u
                 (Sql.trades_insert (settled_trade req a (- a) false) d)) u = b - a) as ->.
    { unfold legacy_balance. sql. rewrite lookup_alter_eq, Huser. simpl. by rewrite Hb. }
    split; [done|]. intros Hlt.
    apply (Qcplus_lt_mono_r _ _ a). by rewrite Qc_minus_plus, Qcplus_0_l.
Qed.

(** What the conversion does refuse.  Once the request passed the
    parameter checks (a session, a source currency, a positive amount, two
    distinct currencies): when the lookup of a currency in the prices is
    falsy ([undefined], [NaN] or 0) the conversion answers 400 "Price not
    available for ..." and the process state is untouched; when both
    prices are numbers and the available balance of the source currency
    (the legacy scalar for USDT, the per-currency entry or zero for any
    other currency) is below the amount, it answers 400 "Insufficient ...
    balance" and the state is untouched. *)
Lemma convert_refuses_unpriced_or_unfunded
    (ticker : option (gmap string Js.num)) (req : Req.t)
    (u f : string) (a : Qc) (d : db) (winner : option string) :
  session_user req = Some u →
  Js.truthy_str (Req.fromCurrency req) = Some f →
  Req.amount req = Some a →
  0 < a →
  f ≠ target_currency req →
  (Js.falsy (price_of (getPrices ticker) f) = true
   ∨ Js.falsy (price_of (getPrices ticker) (target_currency req)) = true →
   ∀ w : world, ∃ c : string,
     post_api_convert ticker req w
     = (Ret (reply 400 (Error (String.append "Price not available for " c))), w)
     ∧ (c = f ∨ c = target_currency req))
  ∧ (∀ pf pt : Qc,
       Js.truthy (price_of (getPrices ticker) f) = Some pf →
       Js.truthy (price_of (getPrices ticker) (target_currency req)) = Some pt →
       available_balance d u f < a →
       post_api_convert ticker req (at_rest d winner)
       = (Ret (reply 400 (Error (if decide (f = "USDT")
                                 then "Insufficient USDT balance"
                                 else "Insufficient balance"))),
          at_rest d winner)).
Proof.
  intros Hu Hf Ha Hpos Hne. split.
  - intros Habsent w. rewrite (convert_validated ticker req u f a) by done. cbv zeta.
    destruct (Js.falsy (price_of (getPrices ticker) f)) eqn:Hx.
    + run. eauto.
    + destruct Habsent as [|Ht]; [done|]. rewrite Ht. run. eauto.
  - intros pf pt Hpf Hpt Hlow.
    rewrite (convert_validated ticker req u f a) by done. cbv zeta.
    rewrite (truthy_not_falsy _ _ Hpf), (truthy_not_falsy _ _ Hpt).
    unfold available_balance, legacy_balance, entry_balance in Hlow.
    destruct (decide (f = "USDT")) as [Hfu|Hfu]; run.
    + destruct (users d !! u) as [r|]; [|done].
      by rewrite decide_True by done.
    + destruct (user_balances d !! (u, f)) as [m|]; [|done].
      simpl in Hlow. by rewrite decide_True by done.
Qed.

(** C6 at its failing input.  alice converts 1 BTC into "toString".  The
    prices hold no currency of that name, but [prices["toString"]] is the
    function every object inherits, which is truthy: the price check lets
    it through.  The conversion answers 200 with a converted amount and a
    rate of [NaN], takes 1 BTC from alice, leaves her a "toString" row
    with a NULL amount and logs a trade with a NULL profit, where the
    price is unavailable and nothing should change. *)
Theorem inherited_member_passes_for_a_price :
  let req := Sample.convert_request "alice" "BTC" (Some "toString") 1 in
  let res := post_api_convert None req (at_rest Sample.ledger (Some "short")) in
  getPrices None !! "toString" = None
  ∧ res.1 = Ret (reply 200 ConvertedNaN)
  ∧ entry_balance (store res.2) "alice" "BTC"
    = entry_balance Sample.ledger "alice" "BTC" - Qc_of_Z 1
  ∧ null_balances res.2 = [("alice", "toString")]
  ∧ (∃ row : Trades.row,
       trades (store res.2) = trades Sample.ledger ++ [row]
       ∧ Trades.side row = Some "convert" ∧ Trades.profit row = None)
  ∧ res ≠ (Ret (reply 400 (Error "Price not available for toString")),
           at_rest Sample.ledger (Some "short")).
Proof.
  cbv zeta. split_and!.
  - by vm_compute.
  - by vm_compute.
  - apply Qc_is_canon. by vm_compute.
  - by vm_compute.
  - eexists. split_and!; by vm_compute.
  - intros H. apply (f_equal fst) in H. vm_compute in H. discriminate H.
Qed.

Lemma price_of_USDT (ticker : option (gmap string Js.num)) :
  Js.truthy (price_of (getPrices ticker) "USDT") = Some 1.
Proof.
  unfold price_of, getPrices. destruct ticker as [m|].
  - by rewrite lookup_insert_eq.
  - reflexivity.
Qed.

(** C10. A conversion request without [toCurrency] is handled exactly as
    the same request with [toCurrency = "USDT"]: from USDT it is refused
    as a conversion to the same currency and the state is untouched, from
    any other currency it converts into USDT, crediting the legacy balance
    at the USDT price of 1. *)
Theorem convert_defaults_to_USDT
    (ticker : option (gmap string Js.num)) (req : Req.t) :
  Req.toCurrency req = None →
  (∀ w : world,
     post_api_convert ticker req w
     = post_api_convert ticker (Req.with_toCurrency (Some "USDT") req) w)
  ∧ (∀ (u : string) (a : Qc) (w : world),
       session_user req = Some u →
       Req.fromCurrency req = Some "USDT" →
       Req.amount req = Some a →
       0 < a →
       post_api_convert ticker req w
       = (Ret (reply 400 (Error "Cannot convert to same currency")), w))
  ∧ (∀ (u f : string) (a pf : Qc) (d : db) (winner : option string),
       session_user req = Some u →
       Js.truthy_str (Req.fromCurrency req) = Some f →
       f ≠ "USDT" →
       Req.amount req = Some a →
       0 < a →
       Js.truthy (price_of (getPrices ticker) f) = Some pf →
       registered d u →
       a ≤ entry_balance d u f →
       ∃ d' : db,
         post_api_convert ticker req (at_rest d winner)
         = (Ret (reply 200 (Converted (a * pf / 1) (pf / 1))), at_rest d' winner)
         ∧ legacy_balance d' u = legacy_balance d u + a * pf / 1
         ∧ entry_balance d' u f = entry_balance d u f - a).
Proof.
  intros Hto.
  assert (target_currency req = "USDT") as Ht by (unfold target_currency; by rewrite Hto).
  split_and!.
  - intros w. unfold post_api_convert.
    replace (target_currency (Req.with_toCurrency (Some "USDT") req)) with "USDT" by done.
    by rewrite Ht.
  - intros u a w Hu Hf Ha Hpos. unfold post_api_convert.
    rewrite Hu, Hf, Ha, Ht. cbn [Js.truthy_str Js.of_field].
    rewrite decide_False by done.
    rewrite (truthy_Num _ (Qc_pos_nonzero _ Hpos)).
    rewrite decide_False by (by apply Qclt_not_le).
    by rewrite decide_True by done.
  - intros u f a pf d winner Hu Hf Hfu Ha Hpos Hpf Hreg Hav.
    eexists. split.
    + eapply convert_runs; try done.
      * by rewrite Ht.
      * rewrite Ht. apply price_of_USDT.
      * unfold available_balance. by rewrite decide_False by done.
    + rewrite Ht. unfold add_target, deduct_source.
      rewrite decide_True by done. rewrite decide_False by done. split.
      * transitivity (legacy_balance (Sql.users_balance_plus (a * pf / 1) u d) u);
          [done|by apply legacy_plus].
      * transitivity (entry_balance
          (Sql.users_balance_plus (a * pf / 1) u (Sql.user_balances_minus a u f d)) u f).
        { apply (entry_upsert_other u "USDT" f). done. }
        by apply (entry_minus a u f d).
Qed.

(** ** Withdrawal escrow *)

Section Withdraw.
Variables (req : Req.t) (u c n ad : string) (a : Qc).
Variables (d : db) (winner : option string).
Hypothesis Huser : session_user req = Some u.
Hypothesis Hactive : frozen (users d !! u) = false.
Hypothesis Hcurrency : Js.truthy_str (Req.currency req) = Some c.
Hypothesis Hnetwork : Js.truthy_str (Req.network req) = Some n.
Hypothesis Hamount : Js.truthy (Js.of_field (Req.amount req)) = Some a.
Hypothesis Haddress : Js.truthy_str (Req.address req) = Some ad.

Lemma withdraw_runs :
  entry_covers d u c a = true ∨ (c = "USDT" ∧ legacy_covers d u a = true) →
  post_api_withdraw req (at_rest d winner) =
  (Ret (reply 200 (Pending (S (length (withdrawals d))))),
   at_rest (Sql.withdrawals_insert (pending_withdrawal u c n a ad) (escrowed d u c a))
     winner).
Proof.
  intros Hfunded. unfold post_api_withdraw.
  rewrite Huser, Hcurrency, Hnetwork, Hamount, Haddress.
  run. rewrite Hactive. run.
  unfold escrowed, entry_covers, legacy_covers in *.
  unfold pending_withdrawal.
  assert (∀ (r : Withdrawals.row) (x : db),
            length (withdrawals (Sql.withdrawals_insert r x))
            = S (length (withdrawals x))) as Hlen.
  { intros r x. sql. rewrite length_app. simpl. lia. }
  destruct (decide (c = "USDT")) as [->|Hc]; run.
  - destruct (user_balances d !! (u, "USDT")) as [m|] eqn:Hm.
    + destruct (decide (a ≤ m)) as [Hle|Hle].
      * rewrite bool_decide_eq_true_2 by done. run.
        by rewrite Hlen.
      * rewrite bool_decide_eq_false_2 in * by done.
        destruct Hfunded as [|[_ Hl]]; [done|]. run.
        destruct (users d !! u) as [r|]; [|done].
        apply bool_decide_eq_true_1 in Hl. rewrite decide_True by done. run.
        by rewrite Hlen.
    + destruct Hfunded as [|[_ Hl]]; [done|]. run.
      destruct (users d !! u) as [r|]; [|done].
      apply bool_decide_eq_true_1 in Hl. rewrite decide_True by done. run.
      by rewrite Hlen.
  - destruct Hfunded as [He|[? _]]; [|done].
    destruct (user_balances d !! (u, c)) as [m|]; [|done].
    rewrite He. apply bool_decide_eq_true_1 in He. rewrite decide_True by done. run.
    by rewrite Hlen.
Qed.

End Withdraw.

Section WithdrawStatus.
Variables (req : Req.t) (s : string) (wd : Withdrawals.row).
Variables (d : db) (winner : option string).
Hypothesis Hstatus : Req.status req = Some s.
Hypothesis Hfound : by_id (withdrawals d) (Req.params_id req) = Some wd.
Hypothesis Hpending : Withdrawals.status wd = "pending".

Lemma withdraw_rejection_runs :
  s = "rejected" →
  post_api_withdraw_status req (at_rest d winner) =
  (Ret (reply 200 Success),
   at_rest (refunded wd (Sql.withdrawals_set_status "rejected" (Req.params_id req) d))
     winner).
Proof.
  intros ->. unfold post_api_withdraw_status, refunded. rewrite Hstatus.
  rewrite decide_False by (intros [_ ?]; done).
  run. rewrite Hfound. rewrite decide_False by (intros ?; done).
  rewrite decide_True by done.
  destruct (decide (Withdrawals.currency wd = "USDT")); by run.
Qed.

Lemma withdraw_approval_runs :
  s = "approved" →
  post_api_withdraw_status req (at_rest d winner) =
  (Ret (reply 200 Success),
   at_rest (Sql.withdrawals_set_status "approved" (Req.params_id req) d) winner).
Proof.
  intros ->. unfold post_api_withdraw_status. rewrite Hstatus.
  rewrite decide_False by (intros [? _]; done).
  run. rewrite Hfound. rewrite decide_False by (intros ?; done).
  rewrite decide_False by done. by run.
Qed.

End WithdrawStatus.

Lemma by_id_last {A} (l : list A) (x : A) : by_id (l ++ [x]) (S (length l)) = Some x.
Proof. simpl. apply list_lookup_middle. done. Qed.

Lemma registered_escrowed (d : db) (u c : string) (a : Qc) :
  registered d u → registered (escrowed d u c a) u.
Proof.
  unfold registered, escrowed. destruct (entry_covers d u c a); sql; [done|].
  rewrite lookup_alter_eq. destruct (users d !! u) as [r|]; simpl; [|done].
  by destruct (Users.balance r).
Qed.

(** C5, as the code has it.  A funded withdrawal of a positive amount
    answers 200 with the id of a pending row and deducts exactly the
    amount at once: from the per-currency entry when that entry covers it,
    otherwise (USDT only) from the legacy scalar.  Rejecting it adds the
    amount to what the deduction left: to the per-currency entry for a
    currency other than USDT, to the legacy scalar of a registered user
    for USDT, and to nothing else.  So a USDT withdrawal that was deducted
    from the USDT entry leaves the entry lowered and the legacy scalar
    raised by the amount; in the other cases the refunded balance is
    (balance - amount) + amount, computed in that order.  Approving it
    leaves users and entries as the deduction left them. *)
Theorem withdrawal_escrow_round_trip
    (req : Req.t) (u c n ad : string) (a : Qc) (d : db) (winner : option string) :
  session_user req = Some u →
  frozen (users d !! u) = false →
  Js.truthy_str (Req.currency req) = Some c →
  Js.truthy_str (Req.network req) = Some n →
  Req.amount req = Some a →
  0 < a →
  Js.truthy_str (Req.address req) = Some ad →
  entry_covers d u c a = true ∨ (c = "USDT" ∧ legacy_covers d u a = true) →
  let id := S (length (withdrawals d)) in
  ∃ d1 : db,
    post_api_withdraw req (at_rest d winner)
    = (Ret (reply 200 (Pending id)), at_rest d1 winner)
    ∧ ((if entry_covers d u c a
        then entry_balance d1 u c = entry_balance d u c - a ∧ users d1 = users d
        else legacy_balance d1 u = legacy_balance d u - a
             ∧ user_balances d1 = user_balances d)
       ∧ ∀ k : string * string,
           k ≠ (u, c) → user_balances d1 !! k = user_balances d !! k)
    ∧ (∀ rej : Req.t,
         Req.params_id rej = id →
         Req.status rej = Some "rejected" →
         ∃ d2 : db,
           post_api_withdraw_status rej (at_rest d1 winner)
           = (Ret (reply 200 Success), at_rest d2 winner)
           ∧ (if bool_decide (c = "USDT")
              then (registered d u → legacy_balance d2 u = legacy_balance d1 u + a)
                   ∧ (∀ v : string, v ≠ u → users d2 !! v = users d1 !! v)
                   ∧ user_balances d2 = user_balances d1
              else entry_balance d2 u c = entry_balance d1 u c + a
                   ∧ (∀ k : string * string,
                        k ≠ (u, c) → user_balances d2 !! k = user_balances d1 !! k)
                   ∧ users d2 = users d1))
    ∧ (∀ app : Req.t,
         Req.params_id app = id →
         Req.status app = Some "approved" →
         ∃ d3 : db,
           post_api_withdraw_status app (at_rest d1 winner)
           = (Ret (reply 200 Success), at_rest d3 winner)
           ∧ users d3 = users d1 ∧ user_balances d3 = user_balances d1).
Proof.
  intros Hu Hact Hc Hn Ha Hpos Had Hfunded id.
  assert (Js.truthy (Js.of_field (Req.amount req)) = Some a) as Hta.
  { rewrite Ha. apply truthy_Num, Qc_pos_nonzero, Hpos. }
  eexists. split; [by eapply withdraw_runs|].
  set (d1 := Sql.withdrawals_insert (pending_withdrawal u c n a ad) (escrowed d u c a)).
  assert (by_id (withdrawals d1) id = Some (pending_withdrawal u c n a ad)) as Hrow.
  { subst d1 id. unfold escrowed. destruct (entry_covers d u c a); apply by_id_last. }
  split_and!.
  2:{ intros k Hk. subst d1. unfold escrowed.
      destruct (entry_covers d u c a); sql; [|done]. by rewrite lookup_alter_ne. }
  - subst d1. unfold escrowed, entry_covers, legacy_covers in *.
    destruct (user_balances d !! (u, c)) as [m|] eqn:Hm.
    + destruct (bool_decide (a ≤ m)) eqn:Hle.
      * split; [|done]. apply bool_decide_eq_true_1 in Hle.
        apply (entry_minus a u c d); [done|]. unfold entry_balance. by rewrite Hm.
      * destruct Hfunded as [|[_ Hl]]; [done|]. split; [|done].
        apply (legacy_minus a u d). unfold registered.
        destruct (users d !! u) as [r|]; [|done]. apply bool_decide_eq_true_1 in Hl.
        simpl. destruct (Users.balance r); [done|]. by apply Qcle_not_lt in Hl.
    + destruct Hfunded as [|[_ Hl]]; [done|]. split; [|done].
      apply (legacy_minus a u d). unfold registered.
      destruct (users d !! u) as [r|]; [|done]. apply bool_decide_eq_true_1 in Hl.
      simpl. destruct (Users.balance r); [done|]. by apply Qcle_not_lt in Hl.
  - intros rej Hid Hst. eexists. split.
    { by apply (withdraw_rejection_runs rej "rejected" (pending_withdrawal u c n a ad));
        [|rewrite Hid| |]. }
    rewrite Hid. unfold refunded, pending_withdrawal.
    cbn [Withdrawals.currency Withdrawals.amount Withdrawals.username].
    destruct (decide (c = "USDT")) as [->|Hcu].
    + rewrite bool_decide_eq_true_2 by done. split_and!.
      * intros Hreg.
        transitivity (legacy_balance d1 u + a); [|done].
        apply (legacy_plus a u (Sql.withdrawals_set_status "rejected" id d1)).
        by apply (registered_escrowed d u "USDT" a).
      * intros v Hv. sql. by rewrite lookup_alter_ne.
      * done.
    + rewrite bool_decide_eq_false_2 by done. split_and!.
      * etransitivity; [apply (entry_upsert u c a)|]. done.
      * intros k Hk. by rewrite upsert_other.
      * done.
  - intros app Hid Hst. eexists. split.
    { by apply (withdraw_approval_runs app "approved" (pending_withdrawal u c n a ad));
        [|rewrite Hid| |]. }
    done.
Qed.

(** ** Running the credit paths *)

Lemma add_coin_balance_runs (req : Req.t) (u c : string) (v : Qc)
    (d : db) (winner : option string) :
  Js.truthy_str (Req.username req) = Some u →
  Js.truthy_str (Req.currency req) = Some c →
  Req.amount req = Some v →
  post_api_admin_users_add_coin_balance req (at_rest d winner)
  = (Ret (reply 200 Updated), at_rest (coin_credited u c v d) winner).
Proof.
  intros Hu Hc Hv. unfold post_api_admin_users_add_coin_balance, coin_credited.
  rewrite Hu, Hc, Hv. run.
  destruct (user_balances d !! (u, c)); destruct (decide (c = "USDT")); by run.
Qed.

Lemma deposit_approval_runs (req : Req.t) (dep : Deposits.row)
    (d : db) (winner : option string) :
  Req.status req = Some "approved" →
  by_id (deposits d) (Req.params_id req) = Some dep →
  post_api_deposit_status req (at_rest d winner)
  = (Ret (reply 200 Success),
     at_rest (Sql.users_balance_plus_col (Deposits.amount dep) (Deposits.username dep)
                (Sql.deposits_set_status (Some "approved") (Req.params_id req) d)) winner).
Proof.
  intros Hst Hdep. unfold post_api_deposit_status. rewrite Hst.
  rewrite decide_True by done. run. sql.
  destruct (Req.params_id req) as [|i]; [done|]. simpl in Hdep.
  cbn [by_id]. rewrite list_lookup_alter_eq, Hdep. by run.
Qed.

Lemma legacy_plus_col (x : Qc) (u : string) (d : db) :
  registered d u →
  legacy_balance (Sql.users_balance_plus_col (Some x) u d) u = legacy_balance d u + x.
Proof.
  unfold registered, legacy_balance. sql. rewrite lookup_alter_eq.
  destruct (users d !! u) as [r|]; simpl; [|by intros []].
  destruct (Users.balance r); simpl; [done|by intros []].
Qed.

(** A settlement and the approval of a deposit write [users.balance] and
    no per-currency entry. *)
Lemma trade_and_deposit_leave_entries (d : db) (winner : option string) :
  (∀ (req : Req.t) (u : string) (user : Users.row) (a : Qc) (pct : Js.num),
     Req.username req = Some u →
     users d !! u = Some user →
     Req.amount req = Some a →
     0 < a →
     minAmount user ≤ a →
     lookup_percent user (Req.seconds req) (Req.percent req) (at_rest d winner)
     = (Ret pct, at_rest d winner) →
     user_balances (store (post_api_trade req (at_rest d winner)).2) = user_balances d)
  ∧ (∀ (req : Req.t) (dep : Deposits.row),
       Req.status req = Some "approved" →
       by_id (deposits d) (Req.params_id req) = Some dep →
       user_balances (store (post_api_deposit_status req (at_rest d winner)).2)
       = user_balances d).
Proof.
  split.
  - intros req u user a pct Hname Huser Ha Hpos Hmin Hlookup.
    by erewrite trade_runs.
  - intros req dep Hst Hdep. by erewrite deposit_approval_runs.
Qed.

(** C4, as the code has it.  For a registered user every credit of USDT
    raises the legacy scalar by the credited amount, on the five paths:
    conversion into USDT, admin coin credit, profit of a trade, approval of
    a USDT deposit, refund of a rejected USDT withdrawal.  The conversion
    and the admin coin credit raise the per-currency USDT entry by the same
    amount (the entry is created when absent).  The refund goes to the
    legacy scalar only and leaves every per-currency entry as it was. *)
Theorem usdt_credit_paths (d : db) (winner : option string) (u : string) :
  registered d u →
  (* conversion credit *)
  (∀ (ticker : option (gmap string Js.num)) (req : Req.t) (f : string) (a pf pt : Qc),
     session_user req = Some u →
     Js.truthy_str (Req.fromCurrency req) = Some f →
     Req.amount req = Some a →
     0 < a →
     target_currency req = "USDT" →
     f ≠ "USDT" →
     Js.truthy (price_of (getPrices ticker) f) = Some pf →
     Js.truthy (price_of (getPrices ticker) "USDT") = Some pt →
     a ≤ entry_balance d u f →
     ∃ d' : db,
       post_api_convert ticker req (at_rest d winner)
       = (Ret (reply 200 (Converted (a * pf / pt) (pf / pt))), at_rest d' winner)
       ∧ credits_both d d' u (a * pf / pt))
  (* admin coin credit *)
  ∧ (∀ (req : Req.t) (v : Qc),
       Js.truthy_str (Req.username req) = Some u →
       Req.currency req = Some "USDT" →
       Req.amount req = Some v →
       ∃ d' : db,
         post_api_admin_users_add_coin_balance req (at_rest d winner)
         = (Ret (reply 200 Updated), at_rest d' winner)
         ∧ credits_both d d' u v)
  (* trade-profit credit *)
  ∧ (∀ (req : Req.t) (user : Users.row) (a : Qc) (pct : Js.num),
       Req.username req = Some u →
       users d !! u = Some user →
       Req.amount req = Some a →
       0 < a →
       minAmount user ≤ a →
       lookup_percent user (Req.seconds req) (Req.percent req) (at_rest d winner)
       = (Ret pct, at_rest d winner) →
       ∃ (result : string) (profit : Qc) (d' : db),
         post_api_trade req (at_rest d winner)
         = (Ret (reply 200 (Settled result profit)), at_rest d' winner)
         ∧ legacy_balance d' u = legacy_balance d u + profit)
  (* deposit-approval credit *)
  ∧ (∀ (req : Req.t) (dep : Deposits.row) (x : Qc),
       Req.status req = Some "approved" →
       by_id (deposits d) (Req.params_id req) = Some dep →
       Deposits.username dep = u →
       Deposits.currency dep = Some "USDT" →
       Deposits.amount dep = Some x →
       ∃ d' : db,
         post_api_deposit_status req (at_rest d winner)
         = (Ret (reply 200 Success), at_rest d' winner)
         ∧ legacy_balance d' u = legacy_balance d u + x)
  (* withdrawal-rejection refund *)
  ∧ (∀ (req : Req.t) (wd : Withdrawals.row),
       Req.status req = Some "rejected" →
       by_id (withdrawals d) (Req.params_id req) = Some wd →
       Withdrawals.status wd = "pending" →
       Withdrawals.username wd = u →
       Withdrawals.currency wd = "USDT" →
       ∃ d' : db,
         post_api_withdraw_status req (at_rest d winner)
         = (Ret (reply 200 Success), at_rest d' winner)
         ∧ credits_legacy_only d d' u (Withdrawals.amount wd)).
Proof.
  intros Hreg. split_and!.
  - intros ticker req f a pf pt Hu Hf Ha Hpos Ht Hfu Hpf Hpt Hav.
    eexists. split.
    + eapply convert_runs; try done; rewrite ?Ht; try done.
      unfold available_balance. by rewrite decide_False by done.
    + rewrite Ht. unfold add_target, deduct_source.
      rewrite decide_True by done. rewrite decide_False by done. split.
      * transitivity (legacy_balance (Sql.users_balance_plus (a * pf / pt) u d) u);
          [done|by apply legacy_plus].
      * transitivity (Some (entry_balance
          (Sql.users_balance_plus (a * pf / pt) u (Sql.user_balances_minus a u f d))
          u "USDT" + a * pf / pt)); [apply upsert_entry|].
        do 2 f_equal. unfold entry_balance. sql.
        by rewrite lookup_alter_ne by congruence.
  - intros req v Hu Hc Hv. eexists. split.
    + eapply add_coin_balance_runs; [done| |done]. by rewrite Hc.
    + unfold coin_credited. rewrite decide_True by done. split.
      * etransitivity; [|by apply (legacy_plus v u d)].
        by destruct (user_balances d !! (u, "USDT")).
      * unfold entry_balance.
        destruct (user_balances d !! (u, "USDT")) as [m|] eqn:Hm; sql.
        -- by rewrite lookup_alter_eq, Hm.
        -- by rewrite lookup_insert_eq, Qc_zero_plus.
  - intros req user a pct Hname Huser Ha Hpos Hmin Hlookup.
    eexists _, _, _. split; [by eapply trade_runs|].
    etransitivity; [|by eapply legacy_plus]. done.
  - intros req dep x Hst Hdep Hu Hc Hx. eexists. split.
    + by eapply deposit_approval_runs.
    + rewrite Hu, Hx.
      etransitivity; [|by apply (legacy_plus_col x u d)]. done.
  - intros req wd Hst Hwd Hp Hu Hc. eexists. split.
    + by eapply withdraw_rejection_runs.
    + unfold refunded. rewrite decide_True by done. rewrite Hu. split; [|done].
      etransitivity; [|by apply (legacy_plus (Withdrawals.amount wd) u d)]. done.
Qed.

(** ** Failure of a statement in the middle of a handler *)

Ltac step_plan :=
  match goal with
  | |- context [match ?p with [] => _ | _ :: _ => _ end] =>
      is_var p; destruct p as [|[|] p]
  | |- context [match users ?d !! ?u with _ => _ end] => destruct (users d !! u)
  | |- context [match user_balances ?d !! ?k with _ => _ end] =>
      destruct (user_balances d !! k)
  | |- context [match by_id ?l ?i with _ => _ end] => destruct (by_id l i)
  | |- context [decide ?P] => destruct (decide P)
  end.


(** So does the withdrawal. *)
Lemma withdraw_all_or_nothing (req : Req.t)
    (p : list bool) (d : db) (winner : option string) :
  committed_or_untouched d (post_api_withdraw req (failing p d winner)).
Proof.
  unfold post_api_withdraw, committed_or_untouched.
  destruct (session_user req) as [u|]; [|right; done].
  run. destruct p as [|[|] p]; run; [|right; done|];
    (destruct (frozen (users d !! u)); [right; done|];
     destruct (Js.truthy_str (Req.currency req)) as [c|]; [|right; done];
     destruct (Js.truthy_str (Req.network req)) as [n|]; [|right; done];
     destruct (Js.truthy (Js.of_field (Req.amount req))) as [a|]; [|right; done];
     destruct (Js.truthy_str (Req.address req)) as [ad|]; [|right; done];
     repeat (run; step_plan); run; simpl; eauto).
Qed.

(** And the admin decision on a withdrawal. *)
Lemma withdraw_status_all_or_nothing (req : Req.t)
    (p : list bool) (d : db) (winner : option string) :
  committed_or_untouched d (post_api_withdraw_status req (failing p d winner)).
Proof.
  unfold post_api_withdraw_status, committed_or_untouched.
  destruct (Req.status req) as [s|]; [|right; done].
  repeat (run; step_plan); run; simpl; eauto.
Qed.

(** C3 at its failing input.  alice trades 100 on the winning side; the
    user lookup and the INSERT into [trades] succeed, the UPDATE of her
    balance throws.  The handler answers 500 "Trade failed", no
    transaction was opened and nothing is rolled back: the trade row with
    its profit of 50 stays in the table while her balance is the one she
    had. *)
Theorem trade_failure_keeps_the_record :
  let req := Sample.trade_request "alice" "long" 100 None 50 in
  let res := post_api_trade req (failing [false; false; true] Sample.ledger (Some "long")) in
  res.1 = Ret (reply 500 (Error "Trade failed"))
  ∧ trades Sample.ledger = []
  ∧ (∃ row : Trades.row,
       trades (store res.2) = [row]
       ∧ Trades.result row = "win" ∧ Trades.profit row = Some (Qc_of_Z 50))
  ∧ users (store res.2) = users Sample.ledger
  ∧ ¬ committed_or_untouched Sample.ledger res.
Proof.
  cbv zeta. split_and!.
  - by vm_compute.
  - done.
  - eexists. split_and!; [by vm_compute|done|].
    cbn [Trades.profit]. f_equal. apply Qc_is_canon. by vm_compute.
  - by vm_compute.
  - intros [[b Hb]|[Hs _]].
    + vm_compute in Hb. discriminate Hb.
    + apply (f_equal (λ x, length (trades x))) in Hs. vm_compute in Hs. discriminate Hs.
Qed.

(** ** Tiers *)

(** A matching tier whose percent is a number other than zero decides the
    payout, whatever the caller sent. *)
Lemma tier_percent_overrides_caller
    (user : Users.row) (l : list tier) (setting : tier)
    (seconds p : Qc) (percent : option Qc) (w : world) :
  Users.trade_settings user = Some (Tiers l) →
  seconds ≠ 0 →
  List.find (tier_matches seconds) l = Some setting →
  tier_percent setting = Some p →
  p ≠ 0 →
  ∃ pct : Js.num,
    lookup_percent user (Some seconds) percent w = (Ret pct, w)
    ∧ fallback_percent pct percent = p.
Proof.
  intros Hl Hs Hfind Hp Hp0. eexists. split.
  - unfold lookup_percent. cbn [Js.of_field]. rewrite (truthy_Num _ Hs), Hl.
    cbn [parse_settings]. run. by rewrite Hfind, Hp.
  - unfold fallback_percent. cbn [Js.of_field Js.parseFloat]. by rewrite truthy_Num.
Qed.

(** C8 at its failing input.  alice has a 60 second tier that pays 0
    percent; she trades 100 on the winning side for 60 seconds and sends
    percent 50 herself.  The tier is found, but its 0 is taken for a
    missing value and her own 50 is used: she is paid 50 where the tier
    pays nothing. *)
Theorem zero_percent_tier_yields_to_caller :
  let req := Sample.trade_request "alice" "long" 100 (Some 60%Z) 50 in
  let res := post_api_trade req (at_rest Sample.ledger (Some "long")) in
  (∃ l setting,
     Users.trade_settings Sample.alice = Some (Tiers l)
     ∧ List.find (tier_matches (Qc_of_Z 60)) l = Some setting
     ∧ tier_percent setting = Some (Qc_of_Z 0))
  ∧ (∃ profit : Qc,
       res.1 = Ret (reply 200 (Settled "win" profit))
       ∧ profit = Qc_of_Z 50
       ∧ profit ≠ Qc_of_Z 100 * (Qc_of_Z 0 / Qc_of_Z 100)).
Proof.
  cbv zeta. split.
  - eexists _, _. split_and!; [done|by vm_compute|done].
  - eexists. split_and!; [by vm_compute| |].
    + apply Qc_is_canon. by vm_compute.
    + intros H. apply (f_equal this) in H. vm_compute in H. discriminate H.
Qed.

(** ** Amounts that are not positive *)

(** The conversion refuses an amount that is missing, zero or negative
    before it reads or writes anything. *)
Lemma convert_refuses_bad_amount (ticker : option (gmap string Js.num)) (req : Req.t)
    (w : world) :
  (∀ a : Qc, Req.amount req = Some a → a ≤ 0) →
  ∃ c : nat, post_api_convert ticker req w = (Ret (reply c (Error
    (if decide (c = 401%nat) then "Unauthorized" else "Invalid parameters"))), w)
    ∧ (c = 400%nat ∨ c = 401%nat).
Proof.
  intros Hbad. unfold post_api_convert.
  destruct (session_user req); [|exists 401%nat; split; [done|by right]].
  exists 400%nat. split; [|by left].
  destruct (Js.truthy_str (Req.fromCurrency req)); [|done].
  destruct (Req.amount req) as [a|]; [|done]. cbn [Js.of_field Js.truthy].
  destruct (decide (a = 0)); [done|].
  by rewrite decide_True by auto.
Qed.

(** The tier lookup reads the row it was given and nothing else. *)
Lemma lookup_percent_pure (user : Users.row) (seconds percent : option Qc) (w : world) :
  ∃ o : outcome Js.num, lookup_percent user seconds percent w = (o, w).
Proof.
  unfold lookup_percent.
  destruct (Js.truthy (Js.of_field seconds)); [|by eexists].
  destruct (Users.trade_settings user) as [[l|]|]; cbn [parse_settings]; run.
  - destruct (find _ l); by eexists.
  - by eexists.
  - by eexists.
Qed.

(** The settlement refuses an amount that is missing, zero or negative:
    whatever it answers, the tables are untouched. *)
Lemma trade_refuses_bad_amount (req : Req.t) (d : db) (winner : option string) :
  (∀ a : Qc, Req.amount req = Some a → a ≤ 0) →
  ∃ (c : nat) (msg : string),
    post_api_trade req (at_rest d winner) = (Ret (reply c (Error msg)), at_rest d winner).
Proof.
  intros Hbad. unfold post_api_trade. run.
  destruct (Req.username req) as [u|]; cbn [option_bind]; [|by eexists _, _].
  destruct (users d !! u) as [user|]; [|by eexists _, _].
  destruct (lookup_percent_pure user (Req.seconds req) (Req.percent req)
              (at_rest d winner))
    as [o Hl].
  unfold at_rest in Hl.
  destruct (Req.amount req) as [a|] eqn:Ha; cbn [Js.of_field Js.parseFloat Js.lt].
  - specialize (Hbad a eq_refl).
    destruct (bool_decide (a < minAmount user)); [by eexists _, _|].
    rewrite Hl. destruct o; [|by eexists _, _].
    rewrite decide_True by done. by eexists _, _.
  - rewrite Hl. destruct o; by eexists _, _.
Qed.

(** The withdrawal refuses an amount that is missing or zero before the
    transaction starts, as long as the lookup of the status succeeds. *)
Lemma withdraw_refuses_missing_amount (req : Req.t) (d : db) (winner : option string) :
  (∀ a : Qc, Req.amount req = Some a → a = 0) →
  ∃ (c : nat) (msg : string),
    post_api_withdraw req (at_rest d winner) = (Ret (reply c (Error msg)), at_rest d winner).
Proof.
  intros Hbad. unfold post_api_withdraw.
  destruct (session_user req) as [u|]; [|by eexists _, _].
  run. destruct (frozen (users d !! u)); [by eexists _, _|].
  destruct (Js.truthy_str (Req.currency req)); [|by eexists _, _].
  destruct (Js.truthy_str (Req.network req)); [|by eexists _, _].
  destruct (Req.amount req) as [a|]; cbn [Js.of_field Js.truthy]; [|by eexists _, _].
  rewrite decide_True by auto. by eexists _, _.
Qed.

(** C9 at its failing inputs.  alice submits a withdrawal of -50 USDT:
    the test [!amount] lets a negative number through, [100 >= -50] counts
    as covered, her USDT entry goes from 100 to 150 and a pending
    withdrawal of -50 is recorded, answered 200.  She submits a deposit of
    -5 USDT: the handler checks nothing and records a pending deposit of
    -5, answered 200. *)
Theorem negative_amounts_are_accepted :
  let winner := Some "short" in
  let withdrawal :=
    post_api_withdraw (Sample.transfer_request "alice" "USDT" (-50))
      (at_rest Sample.ledger winner) in
  let deposit :=
    post_api_deposit (Sample.transfer_request "alice" "USDT" (-5))
      (at_rest Sample.ledger winner) in
  (withdrawal.1 = Ret (reply 200 (Pending 2))
   ∧ entry_balance Sample.ledger "alice" "USDT" = Qc_of_Z 100
   ∧ entry_balance (store withdrawal.2) "alice" "USDT" = Qc_of_Z 150
   ∧ ∃ row : Withdrawals.row,
       withdrawals (store withdrawal.2) = withdrawals Sample.ledger ++ [row]
       ∧ Withdrawals.status row = "pending"
       ∧ Withdrawals.amount row = Qc_of_Z (-50))
  ∧ (deposit.1 = Ret (reply 200 (Pending 2))
     ∧ ∃ row : Deposits.row,
         deposits (store deposit.2) = deposits Sample.ledger ++ [row]
         ∧ Deposits.status row = Some "pending"
         ∧ Deposits.amount row = Some (Qc_of_Z (-5))).
Proof.
  cbv zeta. split; split_and!.
  - by vm_compute.
  - by vm_compute.
  - apply Qc_is_canon. by vm_compute.
  - exists (pending_withdrawal "alice" "USDT" "TRC20" (Qc_of_Z (-50))
              "T9yD14Nj9j7xAB4dbGeiX9h8unkKHxuWwb").
    split_and!; [by vm_compute|done|done].
  - by vm_compute.
  - eexists {| Deposits.username := "alice"; Deposits.currency := Some "USDT";
               Deposits.network := Some "TRC20"; Deposits.amount := Some (Qc_of_Z (-5));
               Deposits.proof_image := None; Deposits.status := Some "pending" |}.
    split_and!; [by vm_compute|done|done].
Qed.

(** ** Where the two representations part *)

(** C4, the claim as stated fails.  alice has a USDT entry of 100.  The
    admin rejects her pending withdrawal of 40 USDT: the refund reaches the
    legacy scalar and the entry stays at 100.  The same happens to the
    entry when the admin approves her deposit of 300 USDT and when she wins
    50 on a trade. *)
Lemma refund_leaves_the_usdt_entry_behind :
  user_balances Sample.ledger !! ("alice", "USDT") = Some (Qc_of_Z 100)
  ∧ Sample.first_rejected.1 = Ret (reply 200 Success)
  ∧ ¬ keeps_in_sync Sample.ledger (store Sample.first_rejected.2) "alice" (Qc_of_Z 40)
  ∧ Sample.first_approved.1 = Ret (reply 200 Success)
  ∧ ¬ keeps_in_sync Sample.ledger (store Sample.first_approved.2) "alice" (Qc_of_Z 300)
  ∧ (∃ profit : Qc,
       Sample.trade_won.1 = Ret (reply 200 (Settled "win" profit))
       ∧ profit = Qc_of_Z 50)
  ∧ ¬ keeps_in_sync Sample.ledger (store Sample.trade_won.2) "alice" (Qc_of_Z 50).
Proof.
  split_and!; try by vm_compute.
  - intros [_ H]. specialize (H (Qc_of_Z 100) eq_refl).
    apply (f_equal (fmap this)) in H. vm_compute in H. discriminate H.
  - intros [_ H]. specialize (H (Qc_of_Z 100) eq_refl).
    apply (f_equal (fmap this)) in H. vm_compute in H. discriminate H.
  - eexists. split; [by vm_compute|]. apply Qc_is_canon. by vm_compute.
  - intros [_ H]. specialize (H (Qc_of_Z 100) eq_refl).
    apply (f_equal (fmap this)) in H. vm_compute in H. discriminate H.
Qed.

(** C5, the claim as stated fails.  alice withdraws 40 USDT: her USDT
    entry of 100 covers it and goes to 60.  The admin rejects the
    withdrawal: 40 is added to her legacy scalar, the entry stays at 60,
    and neither representation is what it was before the withdrawal. *)
Lemma rejected_usdt_withdrawal_is_not_restored :
  Sample.submitted.1 = Ret (reply 200 (Pending 2))
  ∧ Sample.then_rejected.1 = Ret (reply 200 Success)
  ∧ entry_balance (store Sample.then_rejected.2) "alice" "USDT"
    ≠ entry_balance Sample.ledger "alice" "USDT"
  ∧ legacy_balance (store Sample.then_rejected.2) "alice"
    ≠ legacy_balance Sample.ledger "alice".
Proof.
  split_and!; [by vm_compute|by vm_compute| |];
    intros H; apply (f_equal this) in H; vm_compute in H; discriminate H.
Qed.

(** The refund adds the amount to what the deduction left, and that sum
    is rounded: of an entry of 0.3, withdrawing 0.03 and being refused
    leaves 0.30000000000000004. *)
Lemma refund_is_rounded :
  refund_of_deduction 0x1.3333333333333p-2%float 0x1.eb851eb851eb8p-6%float
  = 0x1.3333333333334p-2%float
  ∧ refund_of_deduction 0x1.3333333333333p-2%float 0x1.eb851eb851eb8p-6%float
    ≠ 0x1.3333333333333p-2%float.
Proof.
  split; [reflexivity|].
  intros H. apply (f_equal (λ x, PrimFloat.eqb x 0x1.3333333333333p-2%float)) in H.
  vm_compute in H. discriminate H.
Qed.

(** ** The theorems at sample inputs *)

(** alice converts 950 USDT into BTC at the fallback prices. *)
Lemma convert_moves_exact_amounts_witness :
  ∃ (d' : db) (row : Trades.row),
    post_api_convert None (Sample.convert_request "alice" "USDT" (Some "BTC") 950)
      (at_rest Sample.ledger (Some "short"))
    = (Ret (reply 200 (Converted (Qc_of_Z 950 * 1 / Qc_of_Z 95000) (1 / Qc_of_Z 95000))),
       at_rest d' (Some "short"))
    ∧ available_balance d' "alice" "USDT"
      = available_balance Sample.ledger "alice" "USDT" - Qc_of_Z 950
    ∧ available_balance d' "alice" "BTC"
      = available_balance Sample.ledger "alice" "BTC" + Qc_of_Z 950 * 1 / Qc_of_Z 95000
    ∧ trades d' = trades Sample.ledger ++ [row]
    ∧ Trades.side row = Some "convert"
    ∧ Trades.amount row = Qc_of_Z 950
    ∧ Trades.profit row = Some (Qc_of_Z 950 * 1 / Qc_of_Z 95000)
    ∧ Trades.result row = "win".
Proof.
  apply (convert_moves_exact_amounts None
           (Sample.convert_request "alice" "USDT" (Some "BTC") 950)
           "alice" "USDT" (Qc_of_Z 950) 1 (Qc_of_Z 95000) Sample.ledger (Some "short"));
    [reflexivity|reflexivity|reflexivity|by vm_compute|by vm_compute
    |reflexivity|reflexivity|by vm_compute|by vm_compute].
Defined.

(** alice wins a trade of 100 that pays the 50 percent she sent. *)
Lemma trade_outcome_and_profit_witness :
  ∃ (result : string) (profit : Qc) (d' : db) (row : Trades.row),
    post_api_trade (Sample.trade_request "alice" "long" 100 None 50)
      (at_rest Sample.ledger (Some "long"))
    = (Ret (reply 200 (Settled result profit)), at_rest d' (Some "long"))
    ∧ (result = "win" ↔ Some "long" = Some "long")
    ∧ (result = "win" →
       profit = Qc_of_Z 100 * (fallback_percent (Js.Num (Qc_of_Z 50)) (Some (Qc_of_Z 50))
                               / Qc_of_Z 100))
    ∧ (result ≠ "win" → result = "lose" ∧ profit = - Qc_of_Z 100)
    ∧ users d' !! "alice"
      = Some (Users.with_balance (fmap (λ b, b + profit)) Sample.alice)
    ∧ trades d' = trades Sample.ledger ++ [row]
    ∧ Trades.amount row = Qc_of_Z 100
    ∧ Trades.profit row = Some profit
    ∧ Trades.result row = result.
Proof.
  apply (trade_outcome_and_profit (Sample.trade_request "alice" "long" 100 None 50)
           "alice" Sample.alice (Qc_of_Z 100) (Js.Num (Qc_of_Z 50))
           Sample.ledger (Some "long"));
    [reflexivity|reflexivity|reflexivity|by vm_compute|by vm_compute|reflexivity].
Defined.

(** alice holds 1000 and loses a trade of 2000: she ends at -1000. *)
Lemma losing_trade_is_never_refused_witness :
  ∃ d' : db,
    post_api_trade (Sample.trade_request "alice" "short" 2000 None 50)
      (at_rest Sample.ledger (Some "long"))
    = (Ret (reply 200 (Settled "lose" (- Qc_of_Z 2000))), at_rest d' (Some "long"))
    ∧ legacy_balance d' "alice" = Qc_of_Z 1000 - Qc_of_Z 2000
    ∧ (Qc_of_Z 1000 < Qc_of_Z 2000 → legacy_balance d' "alice" < 0).
Proof.
  apply (losing_trade_is_never_refused (Sample.trade_request "alice" "short" 2000 None 50)
           "alice" Sample.alice (Qc_of_Z 2000) (Qc_of_Z 1000) (Js.Num (Qc_of_Z 50))
           Sample.ledger (Some "long"));
    [reflexivity|reflexivity|reflexivity|reflexivity|by vm_compute|by vm_compute
    |reflexivity|by vm_compute].
Defined.

(** alice withdraws 1 of her 2 BTC; the admin rejects it, or approves it. *)
Lemma withdrawal_escrow_round_trip_witness :
  ∃ d1 d2 d3 : db,
    post_api_withdraw (Sample.transfer_request "alice" "BTC" 1)
      (at_rest Sample.ledger (Some "short"))
    = (Ret (reply 200 (Pending 2)), at_rest d1 (Some "short"))
    ∧ entry_balance d1 "alice" "BTC" = entry_balance Sample.ledger "alice" "BTC" - Qc_of_Z 1
    ∧ users d1 = users Sample.ledger
    ∧ post_api_withdraw_status (Sample.status_request 2 "rejected")
        (at_rest d1 (Some "short"))
      = (Ret (reply 200 Success), at_rest d2 (Some "short"))
    ∧ entry_balance d2 "alice" "BTC" = entry_balance d1 "alice" "BTC" + Qc_of_Z 1
    ∧ users d2 = users d1
    ∧ post_api_withdraw_status (Sample.status_request 2 "approved")
        (at_rest d1 (Some "short"))
      = (Ret (reply 200 Success), at_rest d3 (Some "short"))
    ∧ users d3 = users d1
    ∧ user_balances d3 = user_balances d1.
Proof.
  destruct (withdrawal_escrow_round_trip (Sample.transfer_request "alice" "BTC" 1)
              "alice" "BTC" "TRC20" "T9yD14Nj9j7xAB4dbGeiX9h8unkKHxuWwb" (Qc_of_Z 1)
              Sample.ledger (Some "short"))
    as (d1 & Hrun & Hescrow & Hreject & Happrove);
    [reflexivity|reflexivity|reflexivity|reflexivity|reflexivity|by vm_compute
    |reflexivity|left; reflexivity|].
  destruct (Hreject (Sample.status_request 2 "rejected") eq_refl eq_refl)
    as (d2 & Hrejected & Hrefund & _ & Husers).
  destruct (Happrove (Sample.status_request 2 "approved") eq_refl eq_refl)
    as (d3 & Happroved & Hkept).
  exists d1, d2, d3.
  exact (conj Hrun (conj (proj1 (proj1 Hescrow)) (conj (proj2 (proj1 Hescrow))
          (conj Hrejected (conj Hrefund (conj Husers
          (conj Happroved Hkept))))))).
Defined.

(** alice asks for DOGE, which the fallback table does not price, and for
    5 BTC when she holds 2. *)
Lemma convert_refuses_unpriced_or_unfunded_witness :
  (∃ c : string,
     post_api_convert None (Sample.convert_request "alice" "DOGE" None 5)
       (at_rest Sample.ledger (Some "short"))
     = (Ret (reply 400 (Error (String.append "Price not available for " c))),
        at_rest Sample.ledger (Some "short"))
     ∧ (c = "DOGE" ∨ c = "USDT"))
  ∧ post_api_convert None (Sample.convert_request "alice" "BTC" None 5)
      (at_rest Sample.ledger (Some "short"))
    = (Ret (reply 400 (Error "Insufficient balance")),
       at_rest Sample.ledger (Some "short")).
Proof.
  split.
  - apply (convert_refuses_unpriced_or_unfunded None
             (Sample.convert_request "alice" "DOGE" None 5)
             "alice" "DOGE" (Qc_of_Z 5) Sample.ledger (Some "short"));
      [reflexivity|reflexivity|reflexivity|by vm_compute|by vm_compute|left; reflexivity].
  - destruct (convert_refuses_unpriced_or_unfunded None
                (Sample.convert_request "alice" "BTC" None 5)
                "alice" "BTC" (Qc_of_Z 5) Sample.ledger (Some "short")) as [_ Hfunds];
      [reflexivity|reflexivity|reflexivity|by vm_compute|by vm_compute|].
    apply (Hfunds (Qc_of_Z 95000) 1); [reflexivity|reflexivity|by vm_compute].
Defined.

(** Without [toCurrency]: alice cannot convert USDT, and converts 1 BTC
    into 95000 USDT. *)
Lemma convert_defaults_to_USDT_witness :
  post_api_convert None (Sample.convert_request "alice" "USDT" None 10)
    (at_rest Sample.ledger (Some "short"))
  = (Ret (reply 400 (Error "Cannot convert to same currency")),
     at_rest Sample.ledger (Some "short"))
  ∧ ∃ d' : db,
      post_api_convert None (Sample.convert_request "alice" "BTC" None 1)
        (at_rest Sample.ledger (Some "short"))
      = (Ret (reply 200 (Converted (Qc_of_Z 1 * Qc_of_Z 95000 / 1) (Qc_of_Z 95000 / 1))),
         at_rest d' (Some "short"))
      ∧ legacy_balance d' "alice"
        = legacy_balance Sample.ledger "alice" + Qc_of_Z 1 * Qc_of_Z 95000 / 1
      ∧ entry_balance d' "alice" "BTC"
        = entry_balance Sample.ledger "alice" "BTC" - Qc_of_Z 1.
Proof.
  split.
  - apply (convert_defaults_to_USDT None
             (Sample.convert_request "alice" "USDT" None 10) eq_refl) with "alice" (Qc_of_Z 10);
      [reflexivity|reflexivity|reflexivity|by vm_compute].
  - apply (convert_defaults_to_USDT None
             (Sample.convert_request "alice" "BTC" None 1) eq_refl);
      [reflexivity|reflexivity|by vm_compute|reflexivity|by vm_compute|reflexivity
      |by eexists|by vm_compute].
Defined.

(** The five credits of USDT to alice. *)
Lemma usdt_credit_paths_witness :
  (∃ d' : db,
     post_api_convert None (Sample.convert_request "alice" "BTC" None 1)
       (at_rest Sample.ledger (Some "long"))
     = (Ret (reply 200 (Converted (Qc_of_Z 1 * Qc_of_Z 95000 / 1) (Qc_of_Z 95000 / 1))),
        at_rest d' (Some "long"))
     ∧ credits_both Sample.ledger d' "alice" (Qc_of_Z 1 * Qc_of_Z 95000 / 1))
  ∧ (∃ d' : db,
       post_api_admin_users_add_coin_balance (Sample.coin_request "alice" "USDT" 25)
         (at_rest Sample.ledger (Some "long"))
       = (Ret (reply 200 Updated), at_rest d' (Some "long"))
       ∧ credits_both Sample.ledger d' "alice" (Qc_of_Z 25))
  ∧ (∃ (result : string) (profit : Qc) (d' : db),
       post_api_trade (Sample.trade_request "alice" "long" 100 None 50)
         (at_rest Sample.ledger (Some "long"))
       = (Ret (reply 200 (Settled result profit)), at_rest d' (Some "long"))
       ∧ legacy_balance d' "alice" = legacy_balance Sample.ledger "alice" + profit)
  ∧ (∃ d' : db,
       post_api_deposit_status (Sample.status_request 1 "approved")
         (at_rest Sample.ledger (Some "long"))
       = (Ret (reply 200 Success), at_rest d' (Some "long"))
       ∧ legacy_balance d' "alice" = legacy_balance Sample.ledger "alice" + Qc_of_Z 300)
  ∧ (∃ d' : db,
       post_api_withdraw_status (Sample.status_request 1 "rejected")
         (at_rest Sample.ledger (Some "long"))
       = (Ret (reply 200 Success), at_rest d' (Some "long"))
       ∧ credits_legacy_only Sample.ledger d' "alice" (Qc_of_Z 40)).
Proof.
  destruct (usdt_credit_paths Sample.ledger (Some "long") "alice")
    as (Hconvert & Hcoin & Htrade & Hdeposit & Hrefund); [by eexists|].
  split_and!.
  - apply (Hconvert None (Sample.convert_request "alice" "BTC" None 1) "BTC");
      [reflexivity|reflexivity|reflexivity|by vm_compute|reflexivity|by vm_compute
      |reflexivity|reflexivity|by vm_compute].
  - apply (Hcoin (Sample.coin_request "alice" "USDT" 25)); reflexivity.
  - apply (Htrade (Sample.trade_request "alice" "long" 100 None 50) Sample.alice
             (Qc_of_Z 100) (Js.Num (Qc_of_Z 50)));
      [reflexivity|reflexivity|reflexivity|by vm_compute|by vm_compute|reflexivity].
  - apply (Hdeposit (Sample.status_request 1 "approved")
             {| Deposits.username := "alice"; Deposits.currency := Some "USDT";
                Deposits.network := Some "TRC20"; Deposits.amount := Some (Qc_of_Z 300);
                Deposits.proof_image := None; Deposits.status := Some "pending" |});
      reflexivity.
  - apply (Hrefund (Sample.status_request 1 "rejected")
             (pending_withdrawal "alice" "USDT" "TRC20" (Qc_of_Z 40)
                "T9yD14Nj9j7xAB4dbGeiX9h8unkKHxuWwb"));
      reflexivity.
Defined.

(** * The whole surface *)

(** ** Exploring a handler under every failure plan *)

Ltac exec := repeat (progress (
  cbv beta iota zeta delta
    [mbind M_bind mret M_ret try_catch send Db.get Db.run Db.run_lastID Db.statement
     Db.read Db.write Db.throw Db.begin_transaction Db.commit Db.rollback
     read_ADMIN_WIN_SIDE Db.nullify Db.run_null_amount Db.get_balance Db.upsert
     Db.read_balance Db.write_upsert Db.is_null existsb
     set_store set_null_balances set_snapshot set_plan set_ADMIN_WIN_SIDE
     at_rest failing negb run_checked apply_checked parse_settings
     option_bind from_option];
  cbn [plan snapshot store null_balances ADMIN_WIN_SIDE fst snd])).

Ltac exec_sql := repeat (progress (
  cbv beta iota zeta delta
    [Sql.users_balance_plus Sql.users_balance_plus_col Sql.users_balance_minus
     Sql.user_balances_minus Sql.user_balances_plus Sql.user_balances_minus_if_covered
     Sql.user_balances_insert Sql.user_balances_upsert Sql.trades_insert
     Sql.withdrawals_insert Sql.deposits_insert Sql.withdrawals_set_status
     Sql.deposits_set_status users_set_status users_set_settings
     set_users set_user_balances set_trades set_deposits set_withdrawals];
  cbn [users user_balances trades deposits withdrawals])).

Lemma by_id_deposits_set_status (s : option string) (id : nat) (d : db) :
  by_id (deposits (Sql.deposits_set_status s id d)) id
  = Deposits.with_status s <$> by_id (deposits d) id.
Proof. destruct id as [|i]; [done|]. exec_sql. simpl. apply list_lookup_alter_eq. Qed.

Lemma truthy_str_inv (s : option string) (c : string) :
  Js.truthy_str s = Some c → s = Some c ∧ c ≠ "".
Proof.
  destruct s as [x|]; simpl; [|done].
  destruct (decide (x = "")); [done|]. by intros [= ->].
Qed.

Lemma users_insert_inr (u : string) (b : option Qc) (d d' : db) :
  users_insert u b d = inr d' →
  users d !! u = None ∧ d' = set_users (<[u := new_user b]>) d.
Proof. unfold users_insert. destruct (users d !! u); [done|]. by intros [= <-]. Qed.

(** The term the evaluation of [t] waits for: the scrutinee of its
    outermost [match], followed through nested scrutinees. *)
Ltac stuck t :=
  lazymatch t with
  | match ?x with _ => _ end => stuck x
  | ?f _ =>
      let r := stuck f in
      match r with
      | _ => let _ := match goal with _ => constr_eq r f end in t
      | _ => r
      end
  | _ => t
  end.

Ltac split_on_read :=
  match goal with
  | |- context [match ?x with _ => _ end] =>
      let s := stuck x in
      lazymatch s with
      | decide ?P => destruct (decide P)
      | _ => tryif is_var s then destruct s else destruct s eqn:?
      end
  end.

Ltac open_handlers :=
  unfold post_api_register, post_api_login, post_api_convert, post_api_withdraw,
    post_api_deposit, get_api_history_trades, post_api_trade, post_api_admin_winside,
    post_api_admin_users_balance, post_api_admin_users_add_coin_balance,
    post_api_admin_users_freeze, post_api_admin_users_settings, post_api_deposit_status,
    post_api_withdraw_status, lookup_percent.

(** The goal as a property [Q] of the one run it speaks of. *)
Ltac focus :=
  cbn [serve status_of];
  match goal with
  | |- context [?h (failing ?p ?d ?w)] =>
      pattern (h (failing p d w));
      match goal with |- ?P _ => let Q := fresh "Q" in set (Q := P) end
  end.

(** Every path of the handler in the goal: one goal per combination of
    failing statement, row found and test passed. *)
Ltac explore :=
  try focus; open_handlers;
  repeat (exec;
          first [ match goal with
                  | |- context [by_id (deposits (Sql.deposits_set_status ?s ?i ?d)) ?i] =>
                      rewrite (by_id_deposits_set_status s i d);
                      destruct (by_id (deposits d) i) eqn:?;
                      cbn [fmap option_fmap option_map]
                  end
                | split_on_read ]);
  exec;
  try match goal with Q := _ |- _ => subst Q end;
  cbv beta; cbn [fst snd plan snapshot store null_balances ADMIN_WIN_SIDE];
  repeat match goal with
         | H : users_insert _ _ _ = inr _ |- _ => apply users_insert_inr in H as [? ->]
         | H : Js.truthy_str (Req.username _) = Some _ |- _ =>
             apply truthy_str_inv in H as [? ?]
         end.

(** ** What no request does *)

(** Whatever the request and whichever statements fail, the handler
    leaves no transaction open; and a request that is answered leaves the
    winning side as it was, unless it is the admin's own, which sets it.
    (A handler that throws ends the process, and the variable with it.) *)
Theorem no_request_leaves_a_transaction_open
    (c : call) (p : list bool) (d : db) (winner : option string) :
  snapshot (serve c (failing p d winner)) = None
  ∧ (is_Some (status_of c (failing p d winner)) →
     ADMIN_WIN_SIDE (serve c (failing p d winner))
     = match c with AdminWinside req => Req.side req | _ => winner end).
Proof.
  destruct c.
  all: explore; unfold status_sent; cbn [fst]; (split; [done|]);
    first [done | by intros []].
Qed.

(** The trades table only grows, by one row at most per request: no
    handler rewrites or deletes a settlement or a conversion. *)
Theorem trades_are_append_only
    (c : call) (p : list bool) (d : db) (winner : option string) :
  ∃ l : list Trades.row,
    trades (store (serve c (failing p d winner))) = trades d ++ l
    ∧ (length l ≤ 1)%nat.
Proof.
  destruct c.
  all: explore; exec_sql;
    first [ by (exists []; split; [by rewrite app_nil_r|simpl; lia])
          | by (eexists [_]; split; [done|simpl; lia]) ].
Qed.

(** A request writes the rows of its subject only: the legacy balance
    and the per-currency entries of every other user are what they were,
    whichever statements fail. *)
Theorem requests_touch_only_their_subject
    (c : call) (p : list bool) (d : db) (winner : option string) (u : string) :
  subject c d ≠ Some u →
  users (store (serve c (failing p d winner))) !! u = users d !! u
  ∧ ∀ currency : string,
      user_balances (store (serve c (failing p d winner))) !! (u, currency)
      = user_balances d !! (u, currency).
Proof.
  destruct c; cbn [subject].
  all: explore; exec_sql; intros Hu; (split; [|intros currency]);
    repeat (first [case_decide
                  | match goal with
                    | |- context [match ?x with _ => _ end] => destruct x eqn:?
                    end]);
    simplify_eq/=;
    repeat first [rewrite lookup_alter_ne by congruence
                 |rewrite lookup_insert_ne by congruence
                 |rewrite lookup_delete_ne by congruence]; try done.
Qed.

(** A handler writes the tables its statements name and no other:
    a settlement, a deposit decision and an admin adjustment never write a
    per-currency entry, only the two deposit handlers write [deposits],
    only the two withdrawal handlers write [withdrawals]. *)
Theorem handlers_write_their_tables_only
    (c : call) (p : list bool) (d : db) (winner : option string) (t : table) :
  writes c t = false →
  same_rows t d (store (serve c (failing p d winner))).
Proof.
  revert t. destruct c.
  all: explore; exec_sql; intros [] Hw; try discriminate Hw; done.
Qed.

(** An answer in the 400 range means nothing was written: whatever the
    request and whichever statements fail, the tables are those the
    request found. *)
Theorem refusals_change_nothing
    (c : call) (p : list bool) (d : db) (winner : option string) (n : nat) :
  status_of c (failing p d winner) = Some n →
  (400 ≤ n < 500)%nat →
  store (serve c (failing p d winner)) = d.
Proof.
  destruct c.
  all: explore; unfold status_sent; cbn [fst reply code sent json];
    intros [= <-] ?; first [done | lia].
Qed.

(** ** Solvency *)

Lemma truthy_price_positive (prices : gmap string Js.num) (c : string) (q : Qc) :
  prices_nonnegative prices → Js.truthy (price_of prices c) = Some q → 0 < q.
Proof.
  unfold price_of. intros Hp Hq.
  destruct (decide (c = "__proto__")); [done|].
  destruct (prices !! c) as [[| | |x]|] eqn:Hc; simpl in Hq; try done.
  - destruct (decide (x = 0)); [done|]. injection Hq as ->.
    apply Hp in Hc. apply Qcle_lt_or_eq in Hc as [|]; [done|]. congruence.
  - by destruct (decide (c ∈ Object_prototype)).
Qed.

Lemma solvent_trades_insert (r : Trades.row) (d : db) :
  solvent d → solvent (Sql.trades_insert r d).
Proof. done. Qed.

Lemma solvent_withdrawals_insert (r : Withdrawals.row) (d : db) :
  solvent d → solvent (Sql.withdrawals_insert r d).
Proof. done. Qed.

Lemma solvent_upsert (u c : string) (x : Qc) (d : db) :
  0 ≤ x → solvent d → solvent (Sql.user_balances_upsert u c x d).
Proof.
  intros Hx [Hl He]. split; [done|]. intros k a. exec_sql.
  destruct (user_balances d !! (u, c)) as [m|] eqn:Hm;
    (destruct (decide (k = (u, c))) as [->|];
     [rewrite lookup_insert_eq|rewrite lookup_insert_ne by done; apply He]).
  - intros [= <-]. rewrite <-(Qcplus_0_l 0). apply Qcplus_le_compat; [by eapply He|done].
  - by intros [= <-].
Qed.

Lemma solvent_users_plus (x : Qc) (u : string) (d : db) :
  0 ≤ x → solvent d → solvent (Sql.users_balance_plus x u d).
Proof.
  intros Hx [Hl He]. split; [|done]. intros v r b. exec_sql.
  destruct (decide (u = v)) as [->|];
    [rewrite lookup_alter_eq|rewrite lookup_alter_ne by done; apply Hl].
  destruct (users d !! v) as [r0|] eqn:Hr; simpl; [|done]. intros [= <-]. simpl.
  destruct (Users.balance r0) as [b0|] eqn:Hb; simpl; [|done]. intros [= <-].
  rewrite <-(Qcplus_0_l 0). apply Qcplus_le_compat; [by eapply Hl|done].
Qed.

Lemma Qc_minus_nonneg (a b : Qc) : a ≤ b → 0 ≤ b - a.
Proof.
  intros H. apply (Qcplus_le_mono_r _ _ a). by rewrite Qc_minus_plus, Qcplus_0_l.
Qed.

Lemma solvent_minus_if_covered (a : Qc) (u : string) (d : db) :
  solvent d → solvent (Sql.user_balances_minus_if_covered a u d).
Proof.
  intros [Hl He]. split; [done|]. intros k x. exec_sql.
  destruct (user_balances d !! (u, "USDT")) as [m|] eqn:Hm; [|apply He].
  case_decide; [|apply He].
  destruct (decide (k = (u, "USDT"))) as [->|];
    [rewrite lookup_insert_eq|rewrite lookup_insert_ne by done; apply He].
  intros [= <-]. by apply Qc_minus_nonneg.
Qed.

Lemma solvent_users_minus (a : Qc) (u : string) (r : Users.row) (d : db) :
  users d !! u = Some r → a ≤ Js.of_sql (Users.balance r) →
  solvent d → solvent (Sql.users_balance_minus a u d).
Proof.
  intros Hr Ha [Hl He]. split; [|done]. intros v r' b. exec_sql.
  destruct (decide (u = v)) as [<-|];
    [rewrite lookup_alter_eq, Hr|rewrite lookup_alter_ne by done; apply Hl].
  simpl. intros [= <-]. simpl.
  destruct (Users.balance r) as [b0|]; simpl; [|done]. intros [= <-].
  by apply Qc_minus_nonneg.
Qed.

Lemma solvent_entries_minus (a held : Qc) (u c : string) (d : db) :
  user_balances d !! (u, c) = Some held → a ≤ held →
  solvent d → solvent (Sql.user_balances_minus a u c d).
Proof.
  intros Hm Ha [Hl He]. split; [done|]. intros k x. exec_sql.
  destruct (decide (k = (u, c))) as [->|];
    [rewrite lookup_alter_eq, Hm|rewrite lookup_alter_ne by done; apply He].
  simpl. intros [= <-]. by apply Qc_minus_nonneg.
Qed.

Lemma Qc_div_pos (a b c : Qc) : 0 < a → 0 < b → 0 < c → 0 ≤ a * b / c.
Proof.
  intros Ha Hb Hc. apply Qclt_le_weak. unfold Qcdiv.
  apply Qcmult_pos_pos; [by apply Qcmult_pos_pos|].
  by apply Qcinv_pos.
Qed.

Lemma solvent_delete (k : string * string) (d : db) :
  solvent d → solvent (set_user_balances (delete k) d).
Proof.
  intros [Hl He]. split; [done|]. intros k' a. exec_sql.
  intros [_ Hk]%lookup_delete_Some. by eapply He.
Qed.

Lemma solvent_users_null (u : string) (d : db) :
  solvent d → solvent (Sql.users_balance_plus_col None u d).
Proof.
  intros [Hl He]. split; [|done]. intros v r b. exec_sql.
  destruct (decide (u = v)) as [->|];
    [rewrite lookup_alter_eq|rewrite lookup_alter_ne by done; apply Hl].
  destruct (users d !! v) as [r0|]; simpl; [|done]. intros [= <-]. simpl.
  by destruct (Users.balance r0).
Qed.

(** Conversions and withdrawals keep every balance at or above zero:
    from a ledger without a negative balance, and at prices that are not
    negative, neither leaves a negative legacy balance or entry behind,
    whichever statements fail. *)
Theorem spending_keeps_the_ledger_solvent
    (ticker : option (gmap string Js.num)) (req : Req.t)
    (p : list bool) (d : db) (winner : option string) :
  solvent d →
  (prices_nonnegative (getPrices ticker) →
   solvent (store (post_api_convert ticker req (failing p d winner)).2))
  ∧ solvent (store (post_api_withdraw req (failing p d winner)).2).
Proof.
  intros Hs. split; [intros Hp|].
  - explore; try done.
    all: repeat match goal with
           | H : Js.truthy (price_of _ _) = Some _ |- _ =>
               apply (truthy_price_positive _ _ _ Hp) in H
           | H : ¬ _ ≤ _ |- _ => apply Qcnot_le_lt in H
           | H : ¬ _ < _ |- _ => apply Qcnot_lt_le in H
           end.
    all: repeat match goal with
           | |- solvent (Sql.trades_insert _ _) => apply solvent_trades_insert
           | |- solvent (Sql.user_balances_upsert _ _ _ _) =>
               apply solvent_upsert; [by apply Qc_div_pos|]
           | |- solvent (Sql.users_balance_plus _ _ _) =>
               apply solvent_users_plus; [by apply Qc_div_pos|]
           | |- solvent (Sql.user_balances_minus_if_covered _ _ _) =>
               apply solvent_minus_if_covered
           | |- solvent (Sql.users_balance_minus _ _ _) =>
               eapply solvent_users_minus; [eassumption|eassumption|]
           | |- solvent (Sql.user_balances_minus _ _ _ _) =>
               eapply solvent_entries_minus; [eassumption|eassumption|]
           | |- solvent (set_user_balances (delete _) _) => apply solvent_delete
           | |- solvent (Sql.users_balance_plus_col None _ _) => apply solvent_users_null
           end; try done.
  - explore; try done.
    all: repeat match goal with
           | |- solvent (Sql.withdrawals_insert _ _) => apply solvent_withdrawals_insert
           | |- solvent (Sql.users_balance_minus _ _ _) =>
               eapply solvent_users_minus; [eassumption|eassumption|]
           | |- solvent (Sql.user_balances_minus _ _ _ _) =>
               eapply solvent_entries_minus; [eassumption|eassumption|]
           end; try done.
Qed.

(** ** The winning side *)


(** ** History *)

Lemma trades_of_app (u : string) (r : Trades.row) (f : db → db) (d : db) :
  trades (f d) = trades d ++ [r] →
  trades_of u (f d)
  = if decide (Trades.username r = Some u) then r :: trades_of u d else trades_of u d.
Proof.
  intros Heq. unfold trades_of. rewrite Heq, list.filter_app, list.reverse_app.
  rewrite list.filter_cons, list.filter_nil. by case_decide.
Qed.

(** A settlement heads the history of the user it names and shows in no
    other history. *)
Theorem settlement_heads_the_history
    (req history : Req.t) (u v : string) (user : Users.row) (a : Qc) (pct : Js.num)
    (d : db) (winner : option string) :
  Req.username req = Some u →
  users d !! u = Some user →
  Req.amount req = Some a →
  0 < a →
  minAmount user ≤ a →
  lookup_percent user (Req.seconds req) (Req.percent req) (at_rest d winner)
  = (Ret pct, at_rest d winner) →
  session_user history = Some v →
  let win := bool_decide (Req.side req = winner) in
  let profit := profit_of win a (fallback_percent pct (Req.percent req)) in
  (get_api_history_trades history (post_api_trade req (at_rest d winner)).2).1
  = Ret (inr (if decide (u = v)
              then settled_trade req a profit win :: trades_of v d
              else trades_of v d)).
Proof.
  intros Hname Huser Ha Hpos Hmin Hlookup Hv win profit.
  rewrite (trade_runs req u user a pct d winner) by done.
  unfold get_api_history_trades. rewrite Hv. exec.
  fold win profit. f_equal. f_equal.
  rewrite (trades_of_app v (settled_trade req a profit win)
             (λ d, Sql.users_balance_plus profit u
                     (Sql.trades_insert (settled_trade req a profit win) d))) by done.
  assert (Trades.username (settled_trade req a profit win) = Some u) as Hrow by done.
  destruct (decide (u = v)) as [->|Hne].
  - by rewrite decide_True.
  - rewrite decide_False; [done|]. rewrite Hrow. by intros [= ?].
Qed.

(** ** Settings *)


(** The minimum the admin stores is the one the next trade is held to,
    and a stored minimum that is absent or zero means 10. *)
Theorem stored_minimum_gates_the_next_trade
    (admin req : Req.t) (m : option Qc) (ts : option (list tier))
    (u : string) (user : Users.row) (a : Qc) (d : db) (winner : option string) :
  Js.truthy_str (Req.username admin) = Some u →
  Req.username req = Some u →
  users d !! u = Some user →
  Req.amount req = Some a →
  let floor := default (Qc_of_Z 10) (Js.truthy (Js.of_field m)) in
  let after := (post_api_admin_users_settings admin m ts (at_rest d winner)).2 in
  (post_api_admin_users_settings admin m ts (at_rest d winner)).1
  = Ret (reply 200 Success)
  ∧ users (store after) !! u = Some (row_with_settings m (Tiers <$> ts) user)
  ∧ (a < floor →
     post_api_trade req after = (Ret (reply 400 (Error "Insufficient balance")), after))
  ∧ (floor ≤ a → ∀ r, (post_api_trade req after).1 = Ret r →
     json r ≠ Error "Insufficient balance").
Proof.
  intros Hadmin Hname Huser Ha floor after.
  assert (after = at_rest (users_set_settings m (Tiers <$> ts) u d) winner) as Heq.
  { unfold after, post_api_admin_users_settings. rewrite Hadmin. by exec. }
  assert (users (store after) !! u = Some (row_with_settings m (Tiers <$> ts) user))
    as Hrow.
  { rewrite Heq. cbn [store at_rest]. exec_sql. by rewrite lookup_alter_eq, Huser. }
  split_and!; [|done| |].
  - unfold post_api_admin_users_settings. rewrite Hadmin. by exec.
  - intros Hlt. rewrite Heq in Hrow |- *. cbn [store at_rest] in Hrow.
    unfold post_api_trade. rewrite Hname, Ha.
    cbn [Js.of_field Js.parseFloat Js.lt]. exec. cbn [mbind option_bind].
    rewrite Hrow. unfold minAmount. cbn [row_with_settings Users.min_trade_amount].
    fold floor. by rewrite bool_decide_eq_true_2.
  - intros Hle r. rewrite Heq in Hrow |- *. cbn [store at_rest] in Hrow.
    unfold post_api_trade. rewrite Hname, Ha.
    cbn [Js.of_field Js.parseFloat Js.lt]. exec. cbn [mbind option_bind].
    rewrite Hrow. unfold minAmount. cbn [row_with_settings Users.min_trade_amount].
    fold floor. rewrite bool_decide_eq_false_2 by (by apply Qcle_not_lt).
    destruct (lookup_percent_pure (row_with_settings m (Tiers <$> ts) user)
                (Req.seconds req) (Req.percent req)
                (at_rest (users_set_settings m (Tiers <$> ts) u d) winner)) as [o Ho].
    unfold at_rest in Ho.
    rewrite Ho. destruct o as [pct|e]; exec.
    + destruct (decide (a ≤ 0)); exec; by intros [= <-].
    + by intros [= <-].
Qed.

(** ** Withdrawals *)

(** A withdrawal no balance covers is refused, and the transaction it
    opened is rolled back: the process is as it was. *)
Theorem unfunded_withdrawal_is_refused
    (req : Req.t) (u c n ad : string) (a : Qc) (d : db) (winner : option string) :
  session_user req = Some u →
  frozen (users d !! u) = false →
  Js.truthy_str (Req.currency req) = Some c →
  Js.truthy_str (Req.network req) = Some n →
  Js.truthy (Js.of_field (Req.amount req)) = Some a →
  Js.truthy_str (Req.address req) = Some ad →
  entry_covers d u c a = false →
  (c = "USDT" → legacy_covers d u a = false) →
  post_api_withdraw req (at_rest d winner)
  = (Ret (reply 400 (Error "Insufficient balance")), at_rest d winner).
Proof.
  intros Hu Hact Hc Hn Ha Had He Hl. unfold post_api_withdraw.
  rewrite Hu, Hc, Hn, Ha, Had. exec. rewrite Hact. exec.
  unfold entry_covers, legacy_covers in *.
  destruct (decide (c = "USDT")) as [->|Hne]; exec.
  - specialize (Hl eq_refl).
    destruct (user_balances d !! (u, "USDT")) as [held|]; exec.
    + apply bool_decide_eq_false_1 in He. rewrite decide_False by done. exec.
      destruct (users d !! u) as [row|]; exec; [|done].
      apply bool_decide_eq_false_1 in Hl. rewrite decide_False by done. by exec.
    + destruct (users d !! u) as [row|]; exec; [|done].
      apply bool_decide_eq_false_1 in Hl. rewrite decide_False by done. by exec.
  - destruct (user_balances d !! (u, c)) as [held|]; exec; [|done].
    apply bool_decide_eq_false_1 in He. rewrite decide_False by done. by exec.
Qed.

Lemma by_id_withdrawals_set_status (s : string) (id : nat) (d : db) :
  by_id (withdrawals (Sql.withdrawals_set_status s id d)) id
  = Withdrawals.with_status s <$> by_id (withdrawals d) id.
Proof. destruct id as [|i]; [done|]. exec_sql. simpl. apply list_lookup_alter_eq. Qed.

Lemma withdrawals_refunded (wd : Withdrawals.row) (d : db) :
  withdrawals (refunded wd d) = withdrawals d.
Proof. unfold refunded. by case_decide. Qed.

(** The admin decides a withdrawal once: whatever the first decision was,
    a second one on the same withdrawal is refused and changes nothing, so
    a rejection refunds once. *)
Theorem withdrawal_is_decided_once
    (first second : Req.t) (s s' : string) (wd : Withdrawals.row)
    (d : db) (winner : option string) :
  Req.status first = Some s →
  s = "approved" ∨ s = "rejected" →
  by_id (withdrawals d) (Req.params_id first) = Some wd →
  Withdrawals.status wd = "pending" →
  Req.params_id second = Req.params_id first →
  Req.status second = Some s' →
  s' = "approved" ∨ s' = "rejected" →
  let decided := (post_api_withdraw_status first (at_rest d winner)).2 in
  (post_api_withdraw_status first (at_rest d winner)).1 = Ret (reply 200 Success)
  ∧ post_api_withdraw_status second decided
    = (Ret (reply 400 (Error "Withdrawal already processed")), decided).
Proof.
  intros Hs Hvalid Hfound Hpending Hid Hs' Hvalid' decided.
  assert (∃ d1, post_api_withdraw_status first (at_rest d winner)
                = (Ret (reply 200 Success), at_rest d1 winner)
                ∧ by_id (withdrawals d1) (Req.params_id first)
                  = Some (Withdrawals.with_status s wd)) as (d1 & Hrun & Hrow).
  { destruct Hvalid as [->| ->].
    - eexists. split.
      + by apply (withdraw_approval_runs first "approved" wd).
      + by rewrite by_id_withdrawals_set_status, Hfound.
    - eexists. split.
      + by apply (withdraw_rejection_runs first "rejected" wd).
      + by rewrite withdrawals_refunded, by_id_withdrawals_set_status, Hfound. }
  unfold decided. rewrite Hrun. split; [done|]. cbn [snd].
  unfold post_api_withdraw_status. rewrite Hs', Hid.
  rewrite decide_False by (intros [? ?]; by destruct Hvalid').
  exec. rewrite Hrow.
  rewrite decide_True; [by exec|].
  cbn [Withdrawals.with_status Withdrawals.status]. by destruct Hvalid as [->| ->].
Qed.

(** ** Deposits *)

(** Submitting a deposit moves no balance, whichever statement fails; the
    id it answers is that of a pending row carrying the fields of the
    request. *)
Theorem deposit_is_recorded_pending
    (req : Req.t) (p : list bool) (d : db) (winner : option string) :
  let res := post_api_deposit req (failing p d winner) in
  users (store res.2) = users d
  ∧ user_balances (store res.2) = user_balances d
  ∧ ∀ id : nat, res.1 = Ret (reply 200 (Pending id)) →
      ∃ u : string,
        session_user req = Some u
        ∧ by_id (deposits (store res.2)) id
          = Some {| Deposits.username := u; Deposits.currency := Req.currency req;
                    Deposits.network := Req.network req; Deposits.amount := Req.amount req;
                    Deposits.proof_image := String.append "/uploads/" <$> Req.file req;
                    Deposits.status := Some "pending" |}.
Proof.
  unfold post_api_deposit. explore; exec_sql; split_and!; try done.
  all: intros id [= <-]; eexists; split; [done|].
  all: rewrite length_app; cbn [length]; rewrite Nat.add_1_r; apply by_id_last.
Qed.

(** The approval of a deposit looks at neither its status nor its
    currency: approving the same deposit twice credits its amount to the
    legacy balance twice. *)
Theorem deposit_approval_repeats
    (req : Req.t) (dep : Deposits.row) (x : Qc) (d : db) (winner : option string) :
  Req.status req = Some "approved" →
  by_id (deposits d) (Req.params_id req) = Some dep →
  Deposits.amount dep = Some x →
  registered d (Deposits.username dep) →
  let once := (post_api_deposit_status req (at_rest d winner)).2 in
  let twice := (post_api_deposit_status req once).2 in
  legacy_balance (store once) (Deposits.username dep)
  = legacy_balance d (Deposits.username dep) + x
  ∧ legacy_balance (store twice) (Deposits.username dep)
    = legacy_balance d (Deposits.username dep) + x + x.
Proof.
  intros Hst Hdep Hx Hreg once twice.
  set (u := Deposits.username dep) in *.
  set (d1 := Sql.users_balance_plus_col (Some x) u
               (Sql.deposits_set_status (Some "approved") (Req.params_id req) d)).
  assert (once = at_rest d1 winner) as Honce.
  { unfold once. rewrite (deposit_approval_runs req dep) by done. by rewrite Hx. }
  assert (legacy_balance d1 u = legacy_balance d u + x) as H1.
  { unfold d1. by rewrite legacy_plus_col. }
  assert (registered d1 u) as Hreg1.
  { unfold registered, d1 in *. exec_sql. rewrite lookup_alter_eq.
    destruct (users d !! u) as [row|]; [|by destruct Hreg]. simpl in *.
    destruct (Users.balance row); [done|by destruct Hreg]. }
  split; [by rewrite Honce|].
  unfold twice. rewrite Honce.
  rewrite (deposit_approval_runs req (Deposits.with_status (Some "approved") dep)); [|done|].
  - cbn [snd store at_rest Deposits.with_status Deposits.amount Deposits.username].
    rewrite Hx. fold u. rewrite legacy_plus_col; [|unfold registered in *; by exec_sql].
    transitivity (legacy_balance d1 u + x); [done|by rewrite H1].
  - unfold d1. transitivity
      (by_id (deposits (Sql.deposits_set_status (Some "approved") (Req.params_id req) d))
         (Req.params_id req)); [done|].
    by rewrite by_id_deposits_set_status, Hdep.
Qed.

(** A deposit submitted without an amount is stored with a NULL amount;
    approving it adds NULL to the legacy balance, which is NULL from then
    on: it reads as zero and no admin adjustment brings a number back. *)
Theorem approving_an_empty_deposit_voids_the_balance
    (req adjust : Req.t) (dep : Deposits.row) (row : Users.row)
    (d : db) (winner : option string) :
  Req.status req = Some "approved" →
  by_id (deposits d) (Req.params_id req) = Some dep →
  Deposits.amount dep = None →
  users d !! Deposits.username dep = Some row →
  Req.username adjust = Some (Deposits.username dep) →
  let approved := (post_api_deposit_status req (at_rest d winner)).2 in
  let adjusted := (post_api_admin_users_balance adjust approved).2 in
  (Users.balance <$> users (store approved) !! Deposits.username dep) = Some None
  ∧ legacy_balance (store approved) (Deposits.username dep) = 0
  ∧ (Users.balance <$> users (store adjusted) !! Deposits.username dep) = Some None.
Proof.
  intros Hst Hdep Hnone Hrow Hadj approved adjusted.
  unfold adjusted, approved, legacy_balance.
  rewrite (deposit_approval_runs req dep) by done. rewrite Hnone.
  unfold post_api_admin_users_balance. rewrite Hadj. exec. cbn [from_option]. exec_sql.
  rewrite !lookup_alter_eq, Hrow. cbn.
  by destruct (Users.balance row), (Req.balance adjust).
Qed.

(** ** Accounts *)


(** The login reads and never writes, and it sets the cookie exactly when
    it answers 200: for the name of an account that is not frozen. *)
Theorem login_sets_the_cookie_on_success
    (req : Req.t) (p : list bool) (d : db) (winner : option string)
    (answer : login_response) (after : world) :
  post_api_login req (failing p d winner) = (Ret answer, after) →
  store after = d
  ∧ (code (sent answer) = 200%nat ↔ is_Some (cookie answer))
  ∧ ∀ u : string, cookie answer = Some u →
      Req.username req = Some u
      ∧ ∃ row : Users.row, users d !! u = Some row ∧ Users.status row ≠ "frozen".
Proof.
  unfold post_api_login. explore; intros [= <- <-]; cbn [sent cookie code reply store].
  all: split_and!; try done.
  all: try (split; [done|by intros []]).
  all: try (split; [done|by eexists]).
  all: intros u [= <-]; split; [done|]; by eexists.
Qed.

(** ** Freezing *)

Lemma set_status_back (s : string) (u : string) (row : Users.row) (d : db) :
  users d !! u = Some row →
  Users.status row = s →
  users (users_set_status s u (users_set_status "frozen" u d)) = users d.
Proof.
  intros Hrow Hs. exec_sql. rewrite alter_alter_eq.
  apply map_eq. intros v. destruct (decide (v = u)) as [->|Hne].
  - rewrite lookup_alter_eq, Hrow. cbn. f_equal. destruct row. cbn in *. by subst.
  - by rewrite lookup_alter_ne.
Qed.

(** Once the admin froze an account, its login, its withdrawals and its
    deposits are answered 403 and change nothing; setting the status back
    restores the account as it was. *)
Theorem frozen_account_is_refused
    (freeze thaw login transfer : Req.t) (u : string) (row : Users.row)
    (d : db) (winner : option string) :
  Js.truthy_str (Req.username freeze) = Some u →
  Req.status freeze = Some "frozen" →
  users d !! u = Some row →
  Req.username login = Some u →
  session_user transfer = Some u →
  Js.truthy_str (Req.username thaw) = Some u →
  Js.truthy_str (Req.status thaw) = Some (Users.status row) →
  let frozen := (post_api_admin_users_freeze freeze (at_rest d winner)).2 in
  post_api_login login frozen
  = (Ret {| sent := reply 403 (Error "Please contact with customer service");
            cookie := None |}, frozen)
  ∧ post_api_withdraw transfer frozen = (Ret (reply 403 (Error "Account frozen")), frozen)
  ∧ post_api_deposit transfer frozen = (Ret (reply 403 (Error "Account frozen")), frozen)
  ∧ users (store (post_api_admin_users_freeze thaw frozen).2) = users d.
Proof.
  intros Hf Hs Hrow Hl Ht Hu Hback frozen.
  assert (frozen = at_rest (users_set_status "frozen" u d) winner) as Heq.
  { unfold frozen, post_api_admin_users_freeze. rewrite Hf, Hs. by exec. }
  assert (users (users_set_status "frozen" u d) !! u = Some (row_with_status "frozen" row))
    as Hfrozen.
  { exec_sql. by rewrite lookup_alter_eq, Hrow. }
  rewrite Heq. split_and!.
  - unfold post_api_login. rewrite Hl. exec. cbn [mbind option_bind].
    rewrite Hfrozen. by exec.
  - unfold post_api_withdraw. rewrite Ht. exec. by rewrite Hfrozen.
  - unfold post_api_deposit. rewrite Ht. exec. by rewrite Hfrozen.
  - unfold post_api_admin_users_freeze. rewrite Hu, Hback. exec.
    by apply (set_status_back (Users.status row) u row).
Qed.

Lemma alter_status_balance (f : option Qc → option Qc) (s u v : string)
    (m : gmap string Users.row) :
  alter (Users.with_balance f) v (alter (row_with_status s) u m)
  = alter (row_with_status s) u (alter (Users.with_balance f) v m).
Proof.
  apply map_eq. intros k.
  destruct (decide (u = k)) as [Hu|Hu], (decide (v = k)) as [Hv|Hv]; subst;
    repeat first [rewrite lookup_alter_eq | rewrite lookup_alter_ne by done];
    try done.
  by destruct (m !! k).
Qed.

(** The settlement does not read the status of the account: a trade is
    answered on a frozen account as on the same account before the
    freeze, and it writes the same rows. *)
Theorem trading_ignores_the_freeze
    (req : Req.t) (s u : string) (d : db) (winner : option string) :
  let before := post_api_trade req (at_rest d winner) in
  let after := post_api_trade req (at_rest (users_set_status s u d) winner) in
  after.1 = before.1
  ∧ store after.2 = users_set_status s u (store before.2).
Proof.
  cbv zeta. unfold post_api_trade, lookup_percent.
  destruct (Req.username req) as [v|]; cbn [option_bind].
  2: { exec. cbn [mbind option_bind]. by exec. }
  exec. cbn [mbind option_bind].
  assert (users (users_set_status s u d) !! v
          = (if decide (v = u) then row_with_status s else id) <$> users d !! v) as ->.
  { exec_sql. case_decide as Hv.
    - subst v. by rewrite lookup_alter_eq.
    - rewrite lookup_alter_ne by done. by destruct (users d !! v). }
  destruct (users d !! v) as [row|]; cbn [fmap option_fmap option_map]; [|by exec].
  assert (minAmount ((if decide (v = u) then row_with_status s else id) row)
          = minAmount row) as -> by (by case_decide).
  assert (Users.trade_settings ((if decide (v = u) then row_with_status s else id) row)
          = Users.trade_settings row) as -> by (by case_decide).
  explore; try done.
  all: cbn [from_option]; exec_sql; split; [done|]; f_equal; apply alter_status_balance.
Qed.

(** ** Admin adjustments *)

Lemma db_eq (d d' : db) :
  users d = users d' → user_balances d = user_balances d' → trades d = trades d' →
  deposits d = deposits d' → withdrawals d = withdrawals d' → d = d'.
Proof. destruct d, d'. cbn. by intros -> -> -> -> ->. Qed.

(** The admin's balance request adds its amount to the legacy balance
    (it does not set it): a negative amount subtracts.  It answers
    "updated" also when no account has the name, and then changes
    nothing. *)
Theorem admin_adjustment_adds_or_subtracts
    (credit debit : Req.t) (u : string) (b : Qc) (d : db) (winner : option string) :
  Req.username credit = Some u →
  Req.balance credit = Some b →
  Req.username debit = Some u →
  Req.balance debit = Some (- b) →
  let credited := (post_api_admin_users_balance credit (at_rest d winner)).2 in
  let debited := (post_api_admin_users_balance debit (at_rest d winner)).2 in
  (post_api_admin_users_balance credit (at_rest d winner)).1 = Ret (reply 200 Updated)
  ∧ (registered d u → legacy_balance (store credited) u = legacy_balance d u + b)
  ∧ (registered d u → legacy_balance (store debited) u = legacy_balance d u - b)
  ∧ (users d !! u = None → store credited = d).
Proof.
  intros Hu Hb Hu' Hb' credited debited.
  assert (credited = at_rest (Sql.users_balance_plus_col (Some b) u d) winner) as ->.
  { unfold credited, post_api_admin_users_balance. rewrite Hu, Hb. by exec. }
  assert (debited = at_rest (Sql.users_balance_plus_col (Some (- b)) u d) winner) as ->.
  { unfold debited, post_api_admin_users_balance. rewrite Hu', Hb'. by exec. }
  split_and!.
  - unfold post_api_admin_users_balance. by exec.
  - intros Hreg. by apply legacy_plus_col.
  - intros Hreg. cbn [store at_rest]. by rewrite legacy_plus_col.
  - intros Hnone. cbn [store at_rest]. apply db_eq; try done.
    exec_sql. apply map_eq. intros k. destruct (decide (k = u)) as [->|Hne].
    + by rewrite lookup_alter_eq, Hnone.
    + by rewrite lookup_alter_ne.
Qed.

(** A coin credit in a currency other than USDT raises the entry of that
    currency by the amount, creating it when absent, and writes nothing
    else; it does not ask whether an account has the name. *)
Theorem coin_credit_outside_usdt
    (req : Req.t) (u c : string) (v : Qc) (d : db) (winner : option string) :
  Js.truthy_str (Req.username req) = Some u →
  Js.truthy_str (Req.currency req) = Some c →
  Req.amount req = Some v →
  c ≠ "USDT" →
  let credited := (post_api_admin_users_add_coin_balance req (at_rest d winner)).2 in
  user_balances (store credited) !! (u, c) = Some (entry_balance d u c + v)
  ∧ users (store credited) = users d
  ∧ ∀ k : string * string, k ≠ (u, c) →
      user_balances (store credited) !! k = user_balances d !! k.
Proof.
  intros Hu Hc Hv Hne credited. unfold credited.
  rewrite (add_coin_balance_runs req u c v) by done.
  cbn [snd store at_rest]. unfold coin_credited, entry_balance.
  rewrite decide_False by done.
  destruct (user_balances d !! (u, c)) as [held|] eqn:Hheld; exec_sql; split_and!; try done.
  - by rewrite lookup_alter_eq, Hheld.
  - intros k Hk. by rewrite lookup_alter_ne.
  - rewrite lookup_insert_eq. cbn. by rewrite Qc_zero_plus.
  - intros k Hk. by rewrite lookup_insert_ne.
Qed.

(** ** The properties of the whole surface at sample inputs *)

Ltac Qc_differs :=
  let H := fresh in intros H; apply (f_equal this) in H; vm_compute in H; discriminate H.

Lemma ledger_is_solvent : solvent Sample.ledger.
Proof.
  split.
  - intros u r b Hu Hb. cbn [users Sample.ledger] in Hu.
    apply lookup_singleton_Some in Hu as [_ <-].
    injection Hb as <-. by vm_compute.
  - intros k a Hk. cbn [user_balances Sample.ledger] in Hk.
    apply lookup_insert_Some in Hk as [[_ <-]|[_ Hk]]; [by vm_compute|].
    apply lookup_singleton_Some in Hk as [_ <-]. by vm_compute.
Qed.

Lemma fallback_prices_nonnegative : prices_nonnegative (getPrices None).
Proof.
  intros c q. cbn [getPrices]. unfold fallback_prices. intros Hc.
  repeat (apply lookup_insert_Some in Hc as [[_ [= <-]]|[_ Hc]]; [by vm_compute|]).
  by rewrite lookup_empty in Hc.
Qed.

(** alice's 120 second tier pays 80 percent though she asked for 50. *)
Lemma tier_percent_overrides_caller_witness :
  ∃ pct : Js.num,
    lookup_percent Sample.alice (Some (Qc_of_Z 120)) (Some (Qc_of_Z 50))
      (at_rest Sample.ledger (Some "long"))
    = (Ret pct, at_rest Sample.ledger (Some "long"))
    ∧ fallback_percent pct (Some (Qc_of_Z 50)) = Qc_of_Z 80.
Proof.
  apply (tier_percent_overrides_caller Sample.alice
           [ {| tier_seconds := Some (Qc_of_Z 60); tier_percent := Some (Qc_of_Z 0) |};
             {| tier_seconds := Some (Qc_of_Z 120); tier_percent := Some (Qc_of_Z 80) |} ]
           {| tier_seconds := Some (Qc_of_Z 120); tier_percent := Some (Qc_of_Z 80) |}
           (Qc_of_Z 120) (Qc_of_Z 80) (Some (Qc_of_Z 50))
           (at_rest Sample.ledger (Some "long")));
    [reflexivity|Qc_differs|by vm_compute|reflexivity|Qc_differs].
Defined.

(** alice asks to convert -1 BTC. *)
Lemma convert_refuses_bad_amount_witness :
  ∃ c : nat,
    post_api_convert None (Sample.convert_request "alice" "BTC" None (-1))
      (at_rest Sample.ledger (Some "short"))
    = (Ret (reply c (Error
        (if decide (c = 401%nat) then "Unauthorized" else "Invalid parameters"))),
       at_rest Sample.ledger (Some "short"))
    ∧ (c = 400%nat ∨ c = 401%nat).
Proof.
  apply (convert_refuses_bad_amount None
           (Sample.convert_request "alice" "BTC" None (-1))
           (at_rest Sample.ledger (Some "short"))).
  intros a [= <-]. by vm_compute.
Defined.

(** alice trades an amount of 0. *)
Lemma trade_refuses_bad_amount_witness :
  ∃ (c : nat) (msg : string),
    post_api_trade (Sample.trade_request "alice" "long" 0 None 50)
      (at_rest Sample.ledger (Some "long"))
    = (Ret (reply c (Error msg)), at_rest Sample.ledger (Some "long")).
Proof.
  apply (trade_refuses_bad_amount (Sample.trade_request "alice" "long" 0 None 50)
           Sample.ledger (Some "long")).
  intros a [= <-]. by vm_compute.
Defined.

(** alice withdraws an amount of 0. *)
Lemma withdraw_refuses_missing_amount_witness :
  ∃ (c : nat) (msg : string),
    post_api_withdraw (Sample.transfer_request "alice" "USDT" 0)
      (at_rest Sample.ledger (Some "short"))
    = (Ret (reply c (Error msg)), at_rest Sample.ledger (Some "short")).
Proof.
  apply (withdraw_refuses_missing_amount (Sample.transfer_request "alice" "USDT" 0)
           Sample.ledger (Some "short")).
  intros a [= <-]. apply Qc_is_canon. by vm_compute.
Defined.

(** alice's trade, whose balance update fails, leaves bob as he was. *)
Lemma requests_touch_only_their_subject_witness :
  users (store (serve (Trade (Sample.trade_request "alice" "long" 100 None 50))
                  (failing [false; false; true] Scenario.desk (Some "long")))) !! "bob"
  = users Scenario.desk !! "bob"
  ∧ ∀ currency : string,
      user_balances
        (store (serve (Trade (Sample.trade_request "alice" "long" 100 None 50))
                  (failing [false; false; true] Scenario.desk (Some "long"))))
        !! ("bob", currency)
      = user_balances Scenario.desk !! ("bob", currency).
Proof.
  apply (requests_touch_only_their_subject
           (Trade (Sample.trade_request "alice" "long" 100 None 50))
           [false; false; true] Scenario.desk (Some "long") "bob").
  by vm_compute.
Defined.

(** A login writes no table. *)
Lemma handlers_write_their_tables_only_witness :
  same_rows TUsers Sample.ledger
    (store (serve (Login (Scenario.account_request "alice" None))
              (failing [true] Sample.ledger (Some "short")))).
Proof.
  apply (handlers_write_their_tables_only (Login (Scenario.account_request "alice" None))
           [true] Sample.ledger (Some "short") TUsers).
  reflexivity.
Defined.

(** alice asks for 5 BTC and holds 2: answered 400, nothing written. *)
Lemma refusals_change_nothing_witness :
  store (serve (Withdraw (Sample.transfer_request "alice" "BTC" 5))
           (failing [] Sample.ledger (Some "short")))
  = Sample.ledger.
Proof.
  apply (refusals_change_nothing (Withdraw (Sample.transfer_request "alice" "BTC" 5))
           [] Sample.ledger (Some "short") 400); [by vm_compute|lia].
Defined.

(** alice converts 950 USDT into BTC while the third statement fails, and
    withdraws 1 BTC. *)
Lemma spending_keeps_the_ledger_solvent_witness :
  solvent (store (post_api_convert None
                    (Sample.convert_request "alice" "USDT" (Some "BTC") 950)
                    (failing [false; false; true] Sample.ledger (Some "short"))).2)
  ∧ solvent (store (post_api_withdraw (Sample.transfer_request "alice" "BTC" 1)
                      (failing [] Sample.ledger (Some "short"))).2).
Proof.
  split.
  - exact (proj1 (spending_keeps_the_ledger_solvent None
                    (Sample.convert_request "alice" "USDT" (Some "BTC") 950)
                    [false; false; true] Sample.ledger (Some "short") ledger_is_solvent)
             fallback_prices_nonnegative).
  - exact (proj2 (spending_keeps_the_ledger_solvent None
                    (Sample.transfer_request "alice" "BTC" 1)
                    [] Sample.ledger (Some "short") ledger_is_solvent)).
Defined.


(** alice's trade heads her history. *)
Lemma settlement_heads_the_history_witness :
  (get_api_history_trades (Scenario.session_request "alice")
     (post_api_trade (Sample.trade_request "alice" "long" 100 None 50)
        (at_rest Sample.ledger (Some "long"))).2).1
  = Ret (inr [ settled_trade (Sample.trade_request "alice" "long" 100 None 50)
                 (Qc_of_Z 100)
                 (profit_of true (Qc_of_Z 100)
                    (fallback_percent (Js.Num (Qc_of_Z 50)) (Some (Qc_of_Z 50))))
                 true ]).
Proof.
  apply (settlement_heads_the_history (Sample.trade_request "alice" "long" 100 None 50)
           (Scenario.session_request "alice") "alice" "alice" Sample.alice
           (Qc_of_Z 100) (Js.Num (Qc_of_Z 50)) Sample.ledger (Some "long"));
    [reflexivity|reflexivity|reflexivity|by vm_compute|by vm_compute|reflexivity
    |reflexivity].
Defined.


(** The admin stores a minimum of 0 for alice: her trade of 5 is held to
    the default of 10. *)
Lemma stored_minimum_gates_the_next_trade_witness :
  post_api_trade (Sample.trade_request "alice" "long" 5 None 50)
    (post_api_admin_users_settings (Scenario.account_request "alice" None)
       (Some 0) None (at_rest Sample.ledger (Some "long"))).2
  = (Ret (reply 400 (Error "Insufficient balance")),
     (post_api_admin_users_settings (Scenario.account_request "alice" None)
        (Some 0) None (at_rest Sample.ledger (Some "long"))).2).
Proof.
  destruct (stored_minimum_gates_the_next_trade (Scenario.account_request "alice" None)
              (Sample.trade_request "alice" "long" 5 None 50) (Some 0) None
              "alice" Sample.alice (Qc_of_Z 5) Sample.ledger (Some "long"))
    as (_ & _ & Hbelow & _); [reflexivity|reflexivity|reflexivity|reflexivity|].
  apply Hbelow. by vm_compute.
Defined.

(** alice asks for 5 BTC and holds 2. *)
Lemma unfunded_withdrawal_is_refused_witness :
  post_api_withdraw (Sample.transfer_request "alice" "BTC" 5)
    (at_rest Sample.ledger (Some "short"))
  = (Ret (reply 400 (Error "Insufficient balance")), at_rest Sample.ledger (Some "short")).
Proof.
  apply (unfunded_withdrawal_is_refused (Sample.transfer_request "alice" "BTC" 5)
           "alice" "BTC" "TRC20" "T9yD14Nj9j7xAB4dbGeiX9h8unkKHxuWwb" (Qc_of_Z 5)
           Sample.ledger (Some "short"));
    [reflexivity|reflexivity|reflexivity|reflexivity|by vm_compute|reflexivity
    |by vm_compute|by intros [=]].
Defined.

(** The admin rejects alice's withdrawal, then tries to approve it. *)
Lemma withdrawal_is_decided_once_witness :
  (post_api_withdraw_status (Sample.status_request 1 "rejected")
     (at_rest Sample.ledger (Some "short"))).1
  = Ret (reply 200 Success)
  ∧ post_api_withdraw_status (Sample.status_request 1 "approved")
      (post_api_withdraw_status (Sample.status_request 1 "rejected")
         (at_rest Sample.ledger (Some "short"))).2
    = (Ret (reply 400 (Error "Withdrawal already processed")),
       (post_api_withdraw_status (Sample.status_request 1 "rejected")
          (at_rest Sample.ledger (Some "short"))).2).
Proof.
  apply (withdrawal_is_decided_once (Sample.status_request 1 "rejected")
           (Sample.status_request 1 "approved") "rejected" "approved"
           (pending_withdrawal "alice" "USDT" "TRC20" (Qc_of_Z 40)
              "T9yD14Nj9j7xAB4dbGeiX9h8unkKHxuWwb")
           Sample.ledger (Some "short"));
    [reflexivity|by right|reflexivity|reflexivity|reflexivity|reflexivity|by left].
Defined.

(** The admin approves alice's deposit of 300 twice. *)
Lemma deposit_approval_repeats_witness :
  legacy_balance
    (store (post_api_deposit_status (Sample.status_request 1 "approved")
              (at_rest Sample.ledger (Some "short"))).2) "alice"
  = legacy_balance Sample.ledger "alice" + Qc_of_Z 300
  ∧ legacy_balance
      (store (post_api_deposit_status (Sample.status_request 1 "approved")
                (post_api_deposit_status (Sample.status_request 1 "approved")
                   (at_rest Sample.ledger (Some "short"))).2).2) "alice"
    = legacy_balance Sample.ledger "alice" + Qc_of_Z 300 + Qc_of_Z 300.
Proof.
  apply (deposit_approval_repeats (Sample.status_request 1 "approved")
           {| Deposits.username := "alice"; Deposits.currency := Some "USDT";
              Deposits.network := Some "TRC20"; Deposits.amount := Some (Qc_of_Z 300);
              Deposits.proof_image := None; Deposits.status := Some "pending" |}
           (Qc_of_Z 300) Sample.ledger (Some "short"));
    [reflexivity|reflexivity|reflexivity|by eexists].
Defined.

(** The admin approves bob's deposit, which has no amount, then adds 100
    to his balance. *)
Lemma approving_an_empty_deposit_voids_the_balance_witness :
  (Users.balance <$>
     users (store (post_api_deposit_status (Sample.status_request 1 "approved")
                     (at_rest Scenario.desk (Some "short"))).2) !! "bob") = Some None
  ∧ legacy_balance
      (store (post_api_deposit_status (Sample.status_request 1 "approved")
                (at_rest Scenario.desk (Some "short"))).2) "bob" = 0
  ∧ (Users.balance <$>
       users (store (post_api_admin_users_balance (Sample.balance_request "bob" 100)
                       (post_api_deposit_status (Sample.status_request 1 "approved")
                          (at_rest Scenario.desk (Some "short"))).2).2) !! "bob")
    = Some None.
Proof.
  apply (approving_an_empty_deposit_voids_the_balance
           (Sample.status_request 1 "approved") (Sample.balance_request "bob" 100)
           {| Deposits.username := "bob"; Deposits.currency := Some "USDT";
              Deposits.network := Some "TRC20"; Deposits.amount := None;
              Deposits.proof_image := Some "/uploads/slip.png";
              Deposits.status := Some "pending" |}
           Scenario.bob Scenario.desk (Some "short"));
    reflexivity.
Defined.


(** alice logs in. *)
Lemma login_sets_the_cookie_on_success_witness :
  store (at_rest Sample.ledger (Some "short")) = Sample.ledger
  ∧ (code (reply 200 Success) = 200%nat ↔ is_Some (Some "alice"))
  ∧ ∀ u : string, Some "alice" = Some u →
      Req.username (Scenario.account_request "alice" None) = Some u
      ∧ ∃ row : Users.row,
          users Sample.ledger !! u = Some row ∧ Users.status row ≠ "frozen".
Proof.
  apply (login_sets_the_cookie_on_success (Scenario.account_request "alice" None) []
           Sample.ledger (Some "short")
           {| sent := reply 200 Success; cookie := Some "alice" |}
           (at_rest Sample.ledger (Some "short"))).
  reflexivity.
Defined.

(** The admin freezes alice, who then cannot log in, withdraw or deposit;
    the admin sets her active again. *)
Lemma frozen_account_is_refused_witness :
  post_api_withdraw (Sample.transfer_request "alice" "USDT" 40)
    (post_api_admin_users_freeze (Scenario.account_request "alice" (Some "frozen"))
       (at_rest Sample.ledger (Some "short"))).2
  = (Ret (reply 403 (Error "Account frozen")),
     (post_api_admin_users_freeze (Scenario.account_request "alice" (Some "frozen"))
        (at_rest Sample.ledger (Some "short"))).2)
  ∧ users (store (post_api_admin_users_freeze
                    (Scenario.account_request "alice" (Some "active"))
                    (post_api_admin_users_freeze
                       (Scenario.account_request "alice" (Some "frozen"))
                       (at_rest Sample.ledger (Some "short"))).2).2)
    = users Sample.ledger.
Proof.
  destruct (frozen_account_is_refused
              (Scenario.account_request "alice" (Some "frozen"))
              (Scenario.account_request "alice" (Some "active"))
              (Scenario.account_request "alice" None)
              (Sample.transfer_request "alice" "USDT" 40)
              "alice" Sample.alice Sample.ledger (Some "short"))
    as (_ & Hwithdraw & _ & Hthaw);
    [reflexivity|reflexivity|reflexivity|reflexivity|reflexivity|reflexivity|reflexivity|].
  exact (conj Hwithdraw Hthaw).
Defined.

(** The admin adds 25 to alice's balance; the admin takes 25 from it. *)
Lemma admin_adjustment_adds_or_subtracts_witness :
  legacy_balance
    (store (post_api_admin_users_balance (Sample.balance_request "alice" 25)
              (at_rest Sample.ledger (Some "short"))).2) "alice"
  = legacy_balance Sample.ledger "alice" + Qc_of_Z 25
  ∧ legacy_balance
      (store (post_api_admin_users_balance (Sample.balance_request "alice" (-25))
                (at_rest Sample.ledger (Some "short"))).2) "alice"
    = legacy_balance Sample.ledger "alice" - Qc_of_Z 25.
Proof.
  destruct (admin_adjustment_adds_or_subtracts (Sample.balance_request "alice" 25)
              (Sample.balance_request "alice" (-25)) "alice" (Qc_of_Z 25)
              Sample.ledger (Some "short")) as (_ & Hadds & Hsubtracts & _);
    [reflexivity|reflexivity|reflexivity
    |cbn [Req.balance Sample.balance_request]; f_equal; apply Qc_is_canon; by vm_compute|].
  split; [apply Hadds; by eexists|apply Hsubtracts; by eexists].
Defined.

(** The admin credits 3 ETH to dave, who has no account. *)
Lemma coin_credit_outside_usdt_witness :
  user_balances
    (store (post_api_admin_users_add_coin_balance (Sample.coin_request "dave" "ETH" 3)
              (at_rest Sample.ledger (Some "short"))).2) !! ("dave", "ETH")
  = Some (entry_balance Sample.ledger "dave" "ETH" + Qc_of_Z 3)
  ∧ users (store (post_api_admin_users_add_coin_balance
                    (Sample.coin_request "dave" "ETH" 3)
                    (at_rest Sample.ledger (Some "short"))).2)
    = users Sample.ledger
  ∧ ∀ k : string * string, k ≠ ("dave", "ETH") →
      user_balances
        (store (post_api_admin_users_add_coin_balance
                  (Sample.coin_request "dave" "ETH" 3)
                  (at_rest Sample.ledger (Some "short"))).2) !! k
      = user_balances Sample.ledger !! k.
Proof.
  apply (coin_credit_outside_usdt (Sample.coin_request "dave" "ETH" 3)
           "dave" "ETH" (Qc_of_Z 3) Sample.ledger (Some "short"));
    [reflexivity|reflexivity|reflexivity|by intros [=]].
Defined.
